(** * lsrv: request dispatch, page store and rendering of a small wiki server

    A shallow embedding of [lsrv.go].  Go strings are byte strings and are
    modelled by [string]; [[]byte] values are [list byte].  The working
    directory and the [http.ResponseWriter] are explicit state: an operation
    of package [os] takes the store and returns the store it leaves, together
    with its result or error, and a handler takes the response writer and the
    store and returns both. *)

From Stdlib Require Import ZArith String Ascii List Lia Bool.
From Stdlib.Strings Require Import Byte.
From stdpp Require Import base tactics option list gmap strings.

Local Open Scope string_scope.

(** ** Byte strings *)

(** [strings.HasPrefix] followed by slicing the prefix off. *)
Fixpoint strip_prefix (w s : string) : option string :=
  match w with
  | EmptyString => Some s
  | String a w' =>
      match s with
      | EmptyString => None
      | String b s' => if Ascii.eqb a b then strip_prefix w' s' else None
      end
  end.

Definition LF : string := String "010" "".
Definition TAB : string := String "009" "".
Definition DQ : string := String "034" "".

(** The slice [s[lo:hi]]. *)
Definition slice (s : string) (lo hi : nat) : string := substring lo (hi - lo) s.

Definition orelse {A} (x y : option A) : option A :=
  match x with Some _ => x | None => y end.

(** ** Package [regexp]: the fragment of RE2 syntax that [validPath] uses *)

Module regexp.

(** Syntax trees as [regexp/syntax] builds them: a literal holds a whole run
    of characters, a character class a list of ranges. *)
Inductive Regexp : Type :=
| BeginText                                   (* ^ *)
| EndText                                     (* $ *)
| Literal (w : string)
| CharClass (ranges : list (ascii * ascii))
| Concat (r1 r2 : Regexp)
| Alternate (r1 r2 : Regexp)
| Plus (r : Regexp)
| Capture (i : nat) (r : Regexp).

Definition range_source (r : ascii * ascii) : string :=
  String (fst r) (String "-" (String (snd r) "")).

(** The source text of an expression. *)
Fixpoint source (r : Regexp) : string :=
  match r with
  | BeginText => "^"
  | EndText => "$"
  | Literal w => w
  | CharClass rs => "[" +:+ String.concat "" (map range_source rs) +:+ "]"
  | Concat r1 r2 => source r1 +:+ source r2
  | Alternate r1 r2 => source r1 +:+ "|" +:+ source r2
  | Plus r1 => source r1 +:+ "+"
  | Capture _ r1 => "(" +:+ source r1 +:+ ")"
  end.

Fixpoint NumSubexp (r : Regexp) : nat :=
  match r with
  | Concat r1 r2 | Alternate r1 r2 => Nat.max (NumSubexp r1) (NumSubexp r2)
  | Plus r1 => NumSubexp r1
  | Capture i r1 => Nat.max i (NumSubexp r1)
  | _ => 0
  end.

Definition in_range (c : ascii) (r : ascii * ascii) : bool :=
  Nat.leb (nat_of_ascii (fst r)) (nat_of_ascii c) && Nat.leb (nat_of_ascii c) (nat_of_ascii (snd r)).

Definition in_class (rs : list (ascii * ascii)) (c : ascii) : bool :=
  existsb (in_range c) rs.

(** Capture registers: group index, start and end offset in the input. *)
Definition caps : Type := list (nat * (nat * nat)).

(** What remains to be matched: called with the offset reached, the rest of
    the input and the registers. *)
Definition cont : Type := nat -> string -> caps -> option caps.

Definition matcher : Type := nat -> string -> cont -> caps -> option caps.

(** One or more rounds of [m], as many as possible first.  A round that
    consumes nothing is not repeated; [n] bounds the number of further
    rounds and is the length of the input when the loop is entered. *)
Fixpoint plus_loop (m : matcher) (k : cont) (n : nat) (pos : nat) (s : string) (c : caps)
  {struct n} : option caps :=
  m pos s
    (fun pos' s' c' =>
       match n with
       | S n' =>
           if Nat.ltb (String.length s') (String.length s)
           then orelse (plus_loop m k n' pos' s' c') (k pos' s' c')
           else k pos' s' c'
       | O => k pos' s' c'
       end) c.

(** A backtracking matcher with leftmost-first preference: the first
    alternative that lets the rest of the expression match wins, and [+] is
    greedy.  [pos] is the offset of [s] in the input. *)
Fixpoint rmatch (r : Regexp) (pos : nat) (s : string) (k : cont) (c : caps)
  {struct r} : option caps :=
  match r with
  | BeginText => if Nat.eqb pos 0 then k pos s c else None
  | EndText => match s with EmptyString => k pos s c | String _ _ => None end
  | Literal w =>
      match strip_prefix w s with
      | Some s' => k (pos + String.length w) s' c
      | None => None
      end
  | CharClass rs =>
      match s with
      | String a s' => if in_class rs a then k (S pos) s' c else None
      | EmptyString => None
      end
  | Concat r1 r2 => rmatch r1 pos s (fun pos' s' c' => rmatch r2 pos' s' k c') c
  | Alternate r1 r2 => orelse (rmatch r1 pos s k c) (rmatch r2 pos s k c)
  | Plus r1 => plus_loop (rmatch r1) k (String.length s) pos s c
  | Capture i r1 =>
      rmatch r1 pos s (fun pos' s' c' => k pos' s' ((i, (pos, pos')) :: c')) c
  end.

(** The leftmost match: start offsets are tried in increasing order. *)
Fixpoint search (re : Regexp) (pos : nat) (s : string) : option caps :=
  match rmatch re pos s (fun pos' _ c => Some ((0, (pos, pos')) :: c)) [] with
  | Some c => Some c
  | None =>
      match s with
      | EmptyString => None
      | String _ s' => search re (S pos) s'
      end
  end.

Fixpoint register (c : caps) (i : nat) : option (nat * nat) :=
  match c with
  | [] => None
  | (j, se) :: c' => if Nat.eqb i j then Some se else register c' i
  end.

Definition submatch (input : string) (c : caps) (i : nat) : string :=
  match register c i with
  | Some (lo, hi) => slice input lo hi
  | None => ""
  end.

(** [re.FindStringSubmatch(s)]: [None] stands for the nil slice. *)
Definition FindStringSubmatch (re : Regexp) (s : string) : option (list string) :=
  match search re 0 s with
  | Some c => Some (map (submatch s c) (seq 0 (S (NumSubexp re))))
  | None => None
  end.

End regexp.

Import regexp.

(** [validPath], as [init] compiles it. *)
Definition validPath : Regexp :=
  Concat BeginText
    (Concat (Literal "/")
       (Concat (Capture 1 (Alternate (Literal "edit") (Alternate (Literal "save") (Literal "view"))))
          (Concat (Literal "/")
             (Concat (Capture 2 (Plus (CharClass [("a", "z"); ("A", "Z"); ("0", "9")]%char)))
                EndText)))).

(** ** Go's [error] interface *)

Class error (E : Type) : Type := Error : E -> string.

(** ** Package [os]: a model of the working directory

    File names are keys of a flat directory.  The server runs as the owner of
    the files, without privilege: the owner's permission bits decide whether a
    file may be opened.  A store may be mounted read-only and has a bounded
    number of free bytes.  A file name is a single path component of at most
    [NAME_MAX] bytes.  Permissions are those given at creation, "before
    umask" in the words of the package. *)

Module os.

Inductive Errno : Type := ENOENT | EACCES | EROFS | ENOSPC | ENAMETOOLONG.

Definition Errno_Error (e : Errno) : string :=
  match e with
  | ENOENT => "no such file or directory"
  | EACCES => "permission denied"
  | EROFS => "read-only file system"
  | ENOSPC => "no space left on device"
  | ENAMETOOLONG => "file name too long"
  end.

Record PathError : Type := { Op : string; Path : string; Err : Errno }.

#[global] Instance PathError_error : error PathError :=
  fun e => Op e +:+ " " +:+ Path e +:+ ": " +:+ Errno_Error (Err e).

Record inode : Type := { data : list byte; mode : Z }.

Record FS : Type := { files : gmap string inode; readonly : bool; free : nat }.

(** An open file, positioned at offset 0. *)
Record File : Type := { fname : string }.

Definition O_RDONLY : Z := 0x0.
Definition O_WRONLY : Z := 0x1.
Definition O_RDWR : Z := 0x2.
Definition O_CREATE : Z := 0x40.
Definition O_TRUNC : Z := 0x200.

(** The longest file name the directory takes, in bytes. *)
Definition NAME_MAX : nat := 255.

(** Owner read and owner write, 0400 and 0200. *)
Definition S_IRUSR : Z := 0x100.
Definition S_IWUSR : Z := 0x80.

Definition has (flag bit : Z) : bool := negb (Z.land flag bit =? 0)%Z.

Definition wants_read (flag : Z) : bool :=
  let acc := Z.land flag 0x3 in ((acc =? O_RDONLY) || (acc =? O_RDWR))%Z.

Definition wants_write (flag : Z) : bool :=
  let acc := Z.land flag 0x3 in ((acc =? O_WRONLY) || (acc =? O_RDWR))%Z.

Definition denied (flag : Z) (i : inode) : bool :=
  (wants_read flag && negb (has (mode i) S_IRUSR))
  || (wants_write flag && negb (has (mode i) S_IWUSR)).

Definition open_error (name : string) (e : Errno) : PathError :=
  {| Op := "open"; Path := name; Err := e |}.

(** [os.OpenFile(name, flag, perm)].  The lookup of a name longer than
    [NAME_MAX] fails before anything else is tried. *)
Definition OpenFile (name : string) (flag perm : Z) (fs : FS) : FS * (File + PathError) :=
  if Nat.ltb NAME_MAX (String.length name) then (fs, inr (open_error name ENAMETOOLONG))
  else
  match files fs !! name with
  | Some i =>
      if wants_write flag && readonly fs then (fs, inr (open_error name EROFS))
      else if denied flag i then (fs, inr (open_error name EACCES))
      else if has flag O_TRUNC && wants_write flag then
        ({| files := <[name := {| data := []; mode := mode i |}]> (files fs);
            readonly := readonly fs;
            free := free fs + length (data i) |},
         inl {| fname := name |})
      else (fs, inl {| fname := name |})
  | None =>
      if has flag O_CREATE then
        if readonly fs then (fs, inr (open_error name EROFS))
        else
          ({| files := <[name := {| data := []; mode := perm |}]> (files fs);
              readonly := readonly fs;
              free := free fs |},
           inl {| fname := name |})
      else (fs, inr (open_error name ENOENT))
  end.

(** [f.Write(b)] on a file at offset 0: the bytes that fit are written over
    the start of the file, and a short write reports ENOSPC.  Files are never
    removed here, so the file of an open handle is present. *)
Definition File_Write (f : File) (b : list byte) (fs : FS) : FS * (nat * option PathError) :=
  match files fs !! fname f with
  | Some i =>
      let n := Nat.min (length b) (length (data i) + free fs) in
      let new := (take n b ++ drop n (data i))%list in
      ({| files := <[fname f := {| data := new; mode := mode i |}]> (files fs);
          readonly := readonly fs;
          free := free fs + length (data i) - length new |},
       (n, if Nat.ltb n (length b)
           then Some {| Op := "write"; Path := fname f; Err := ENOSPC |}
           else None))
  | None => (fs, (0, Some {| Op := "write"; Path := fname f; Err := ENOENT |}))
  end.

Definition File_WriteString (f : File) (s : string) (fs : FS) : FS * (nat * option PathError) :=
  File_Write f (list_byte_of_string s) fs.

(** [os.Create(name)]. *)
Definition Create (name : string) (fs : FS) : FS * (File + PathError) :=
  OpenFile name (Z.lor O_RDWR (Z.lor O_CREATE O_TRUNC)) 0x1b6 (* 0666 *) fs.

(** [os.ReadFile(name)]. *)
Definition ReadFile (name : string) (fs : FS) : FS * (list byte + PathError) :=
  match OpenFile name O_RDONLY 0 fs with
  | (fs1, inl f) =>
      match files fs1 !! fname f with
      | Some i => (fs1, inl (data i))
      | None => (fs1, inl [])
      end
  | (fs1, inr e) => (fs1, inr e)
  end.

(** [os.WriteFile(name, data, perm)]: open with
    [O_WRONLY|O_CREATE|O_TRUNC], write, close. *)
Definition WriteFile (name : string) (b : list byte) (perm : Z) (fs : FS) : FS * option PathError :=
  match OpenFile name (Z.lor O_WRONLY (Z.lor O_CREATE O_TRUNC)) perm fs with
  | (fs1, inl f) => let '(fs2, (_, err)) := File_Write f b fs1 in (fs2, err)
  | (fs1, inr e) => (fs1, Some e)
  end.

End os.

(** ** Package [net/http]: requests and the response being written *)

Module http.

Definition StatusOK : Z := 200.
Definition StatusFound : Z := 302.
Definition StatusNotFound : Z := 404.
Definition StatusInternalServerError : Z := 500.

Definition StatusText (code : Z) : string :=
  if (code =? StatusOK)%Z then "OK"
  else if (code =? StatusFound)%Z then "Found"
  else if (code =? StatusNotFound)%Z then "Not Found"
  else if (code =? StatusInternalServerError)%Z then "Internal Server Error"
  else "".

(** A request after [ParseForm]: [Form] maps a field to its values. *)
Record Request : Type := {
  Method : string;
  URL_Path : string;
  Form : gmap string (list string)
}.

(** [r.FormValue(key)]: the first value of the field, or the empty string. *)
Definition FormValue (r : Request) (key : string) : string :=
  match Form r !! key with
  | Some (v :: _) => v
  | _ => ""
  end.

(** The response as the handler has produced it so far; [status] is [None]
    until the header is written. *)
Record ResponseWriter : Type := {
  header : gmap string string;
  status : option Z;
  body : string
}.

(** What the server hands to a handler. *)
Definition fresh : ResponseWriter := {| header := ∅; status := None; body := "" |}.

Definition Header_Set (k v : string) (w : ResponseWriter) : ResponseWriter :=
  {| header := <[k := v]> (header w); status := status w; body := body w |}.

Definition Header_Del (k : string) (w : ResponseWriter) : ResponseWriter :=
  {| header := delete k (header w); status := status w; body := body w |}.

(** Only the first [WriteHeader] takes effect. *)
Definition WriteHeader (code : Z) (w : ResponseWriter) : ResponseWriter :=
  match status w with
  | None => {| header := header w; status := Some code; body := body w |}
  | Some _ => w
  end.

(** [w.Write]: writes the header with 200 first if it is not yet written. *)
Definition Write (b : string) (w : ResponseWriter) : ResponseWriter :=
  let w1 := WriteHeader StatusOK w in
  {| header := header w1; status := status w1; body := body w1 +:+ b |}.

(** [fmt.Fprintln(w, s)]. *)
Definition Fprintln (s : string) (w : ResponseWriter) : ResponseWriter := Write (s +:+ LF) w.

(** [http.Error(w, error, code)]. *)
Definition Error (w : ResponseWriter) (error : string) (code : Z) : ResponseWriter :=
  Fprintln error
    (WriteHeader code
       (Header_Set "X-Content-Type-Options" "nosniff"
          (Header_Set "Content-Type" "text/plain; charset=utf-8"
             (Header_Del "Content-Length" w)))).

(** [http.NotFound(w, r)]. *)
Definition NotFound (w : ResponseWriter) (r : Request) : ResponseWriter :=
  Error w "404 page not found" StatusNotFound.

Definition htmlEscape_char (a : ascii) : string :=
  if Ascii.eqb a "&" then "&amp;"
  else if Ascii.eqb a "<" then "&lt;"
  else if Ascii.eqb a ">" then "&gt;"
  else if Ascii.eqb a "034" then "&#34;"
  else if Ascii.eqb a "039" then "&#39;"
  else String a "".

Fixpoint htmlEscape (s : string) : string :=
  match s with
  | EmptyString => ""
  | String a s' => htmlEscape_char a +:+ htmlEscape s'
  end.

(** [http.Redirect(w, r, url, code)] for a [url] that is an absolute path
    without dot segments, doubled slashes, query or non-ASCII bytes (as
    ["/view/"+title] and ["/edit/"+title] are for a title that [validPath]
    extracted): on such a path Redirect's cleaning and escaping of the
    target are the identity. *)
Definition Redirect (w : ResponseWriter) (r : Request) (url : string) (code : Z) : ResponseWriter :=
  let hadCT := bool_decide (is_Some (header w !! "Content-Type")) in
  let w1 := Header_Set "Location" url w in
  let w2 :=
    if negb hadCT && (String.eqb (Method r) "GET" || String.eqb (Method r) "HEAD")
    then Header_Set "Content-Type" "text/html; charset=utf-8" w1
    else w1 in
  let w3 := WriteHeader code w2 in
  if negb hadCT && String.eqb (Method r) "GET"
  then Fprintln ("<a href=" +:+ DQ +:+ htmlEscape url +:+ DQ +:+ ">" +:+ StatusText code +:+ "</a>." +:+ LF) w3
  else w3.

End http.

(** ** The page entity *)

Record Page : Type := { Title : string; Body : list byte }.

(** ** Package [html/template]: the actions and escapers the two templates use *)

Module template.

(** U+FFFD in UTF-8. *)
Definition replacement_char : string := String "239" (String "191" (String "189" "")).

(** [htmlReplacementTable]; every other byte is copied. *)
Definition htmlReplacement (a : ascii) : option string :=
  if Ascii.eqb a "000" then Some replacement_char
  else if Ascii.eqb a "034" then Some "&#34;"
  else if Ascii.eqb a "&" then Some "&amp;"
  else if Ascii.eqb a "039" then Some "&#39;"
  else if Ascii.eqb a "+" then Some "&#43;"
  else if Ascii.eqb a "<" then Some "&lt;"
  else if Ascii.eqb a ">" then Some "&gt;"
  else None.

Fixpoint htmlReplacer (s : string) : string :=
  match s with
  | EmptyString => ""
  | String a s' =>
      match htmlReplacement a with
      | Some repl => repl +:+ htmlReplacer s'
      | None => String a (htmlReplacer s')
      end
  end.

Definition isHex (a : ascii) : bool :=
  in_class [("0", "9"); ("a", "f"); ("A", "F")]%char a.

Definition hex_digit (n : nat) : ascii :=
  if Nat.ltb n 10 then ascii_of_nat (48 + n) else ascii_of_nat (87 + n).

(** [fmt.Sprintf("%%%02x", c)]. *)
Definition percent_hex (a : ascii) : string :=
  let n := nat_of_ascii a in
  String "%" (String (hex_digit (n / 16)) (String (hex_digit (n mod 16)) "")).

(** The bytes [processURLOnto] copies when normalizing: reserved and
    unreserved characters, and a [%] that starts a valid escape. *)
Definition url_keep (a : ascii) (rest : string) : bool :=
  existsb (Ascii.eqb a)
    ["!"; "#"; "$"; "&"; "*"; "+"; ","; "/"; ":"; ";"; "="; "?"; "@"; "["; "]";
     "-"; "."; "_"; "~"]%char
  || in_class [("a", "z"); ("A", "Z"); ("0", "9")]%char a
  || (Ascii.eqb a "%" &&
      match rest with
      | String h1 (String h2 _) => isHex h1 && isHex h2
      | _ => false
      end).

Fixpoint urlNormalizer (s : string) : string :=
  match s with
  | EmptyString => ""
  | String a s' =>
      if url_keep a s' then String a (urlNormalizer s')
      else percent_hex a +:+ urlNormalizer s'
  end.

(** The escapers that the contextual analysis of [html/template] appends to
    an action: in element text, in the text of a [textarea], and in a quoted
    attribute that holds a URL. *)
Inductive escaper : Type := htmlescaper | rcdataescaper | urlnormalizer | attrescaper.

Definition escape (e : escaper) (s : string) : string :=
  match e with
  | htmlescaper | rcdataescaper | attrescaper => htmlReplacer s
  | urlnormalizer => urlNormalizer s
  end.

Inductive action : Type :=
| dot_Title          (* {{.Title}} *)
| printf_s_Body.     (* {{printf "%s" .Body}} *)

Inductive Node : Type :=
| TextNode (text : string)
| ActionNode (a : action) (esc : list escaper).

Definition Template : Type := list Node.

Definition action_source (a : action) : string :=
  match a with
  | dot_Title => "{{.Title}}"
  | printf_s_Body => "{{printf " +:+ DQ +:+ "%s" +:+ DQ +:+ " .Body}}"
  end.

(** The template text a tree was parsed from. *)
Definition source (t : Template) : string :=
  String.concat ""
    (map (fun n => match n with TextNode s => s | ActionNode a _ => action_source a end) t).

Definition eval (a : action) (p : Page) : string :=
  match a with
  | dot_Title => Title p
  | printf_s_Body => string_of_list_byte (Body p)
  end.

Definition output (n : Node) (p : Page) : string :=
  match n with
  | TextNode s => s
  | ActionNode a esc => fold_left (fun s e => escape e s) esc (eval a p)
  end.

(** [t.Execute(w, p)]: each node is written to [w] in turn. *)
Definition Execute (t : Template) (w : http.ResponseWriter) (p : Page) : http.ResponseWriter :=
  fold_left (fun w n => http.Write (output n p) w) t w.

Fixpoint Lookup (ts : list (string * Template)) (name : string) : option Template :=
  match ts with
  | [] => None
  | (n, t) :: ts' => if String.eqb n name then Some t else Lookup ts' name
  end.

Record ExecError : Type := { msg : string }.

#[global] Instance ExecError_error : error ExecError := msg.

(** [ts.ExecuteTemplate(w, name, p)]. *)
Definition ExecuteTemplate (ts : list (string * Template)) (w : http.ResponseWriter)
    (name : string) (p : Page) : http.ResponseWriter * option ExecError :=
  match Lookup ts name with
  | Some t => (Execute t w p, None)
  | None =>
      (w, Some {| msg := "html/template: " +:+ DQ +:+ name +:+ DQ +:+ " is undefined" |})
  end.

(** *** Parsing

    [Parse] goes over a template text as the lexer of [text/template/parse]
    does: a run of text up to the next left delimiter [{{], then an action.
    Of the actions it knows the two that the program's templates are written
    with.  A left delimiter with no right delimiter [}}] anywhere after it
    cannot be lexed to the end of an action, whatever it holds: the text does
    not parse.  An action of any other form is outside this model.  A parsed
    tree carries no escapers yet: [html/template] adds them when a template is
    first executed. *)
Inductive ParseResult : Type :=
| Parsed (t : Template)
| Malformed
| Unsupported.

(** The tree as parsed, before escapers were added. *)
Definition unescaped (t : Template) : Template :=
  map (fun n => match n with TextNode s => TextNode s | ActionNode a _ => ActionNode a [] end) t.

(** Some [}}] occurs in [s]. *)
Fixpoint closes (s : string) : bool :=
  match s with
  | EmptyString => false
  | String _ s' => String.prefix "}}" s || closes s'
  end.

(** The action whose source starts [s], if it is a known one. *)
Definition action_at (s : string) : option action :=
  find (fun a => String.prefix (action_source a) s) [dot_Title; printf_s_Body].

(** A text node is made of a non-empty run only. *)
Definition text_node (text : string) (t : Template) : Template :=
  match text with
  | EmptyString => t
  | _ => TextNode text :: t
  end.

Definition and_then (r : ParseResult) (f : Template -> Template) : ParseResult :=
  match r with
  | Parsed t => Parsed (f t)
  | Malformed => Malformed
  | Unsupported => Unsupported
  end.

(** [parse s skip text]: [text] is the run of text read so far, and the next
    [skip] bytes of [s] belong to the action just recognized. *)
Fixpoint parse (s : string) (skip : nat) (text : string) : ParseResult :=
  match s with
  | EmptyString => Parsed (text_node text [])
  | String c s' =>
      match skip with
      | S k => parse s' k text
      | O =>
          if String.prefix "{{" s then
            match action_at s with
            | Some a =>
                and_then (parse s' (String.length (action_source a) - 1) "")
                  (fun t => text_node text (ActionNode a [] :: t))
            | None => if closes s' then Unsupported else Malformed
            end
          else parse s' 0 (text +:+ String c "")
      end
  end.

(** [t.Parse(text)]. *)
Definition Parse (text : string) : ParseResult := parse text 0 "".

(** Why [ParseFiles] failed: a file could not be read, or the text of the
    template of that name does not parse, or is outside this model.  The text of a
    parse error, which names a line and varies between releases of the
    package, is not modelled. *)
Inductive ParseFilesError : Type :=
| ReadError (e : os.PathError)
| ParseError (name : string)
| NotCovered (name : string).

(** [template.ParseFiles(filenames...)], for at least one name: each file in
    turn is read and its text parsed as the template of that name; the first
    error ends the call. *)
Fixpoint ParseFiles (filenames : list string) (fs : os.FS)
  : os.FS * (list (string * Template) + ParseFilesError) :=
  match filenames with
  | [] => (fs, inl [])
  | name :: rest =>
      match os.ReadFile name fs with
      | (fs1, inr e) => (fs1, inr (ReadError e))
      | (fs1, inl b) =>
          match Parse (string_of_list_byte b) with
          | Malformed => (fs1, inr (ParseError name))
          | Unsupported => (fs1, inr (NotCovered name))
          | Parsed t =>
              match ParseFiles rest fs1 with
              | (fs2, inr e) => (fs2, inr e)
              | (fs2, inl ts) => (fs2, inl ((name, t) :: ts))
              end
          end
      end
  end.

End template.

(** ** The program *)

Definition edit_html : string :=
  LF +:+ "<h1>Editing {{.Title}}</h1>" +:+ LF
  +:+ LF
  +:+ "<form action=" +:+ DQ +:+ "/save/{{.Title}}" +:+ DQ +:+ " method=" +:+ DQ +:+ "POST" +:+ DQ +:+ ">" +:+ LF
  +:+ "<div><textarea name=" +:+ DQ +:+ "body" +:+ DQ +:+ " rows=" +:+ DQ +:+ "20" +:+ DQ
  +:+ " cols=" +:+ DQ +:+ "80" +:+ DQ +:+ ">{{printf " +:+ DQ +:+ "%s" +:+ DQ +:+ " .Body}}</textarea></div>" +:+ LF
  +:+ "<div><input type=" +:+ DQ +:+ "submit" +:+ DQ +:+ " value=" +:+ DQ +:+ "Save" +:+ DQ +:+ "></div>" +:+ LF
  +:+ "</form>".

Definition view_html : string :=
  LF +:+ TAB +:+ "<h1>{{.Title}}</h1>" +:+ LF
  +:+ "<p>[<a href=" +:+ DQ +:+ "/edit/{{.Title}}" +:+ DQ +:+ ">edit</a>]</p>" +:+ LF
  +:+ "<div>{{printf " +:+ DQ +:+ "%s" +:+ DQ +:+ " .Body}}</div>" +:+ LF.

Import template.

(** [edit_html] and [view_html] as [html/template] parses them and, at the
    first execution, escapes them. *)
Definition edit_template : Template :=
  [ TextNode (LF +:+ "<h1>Editing ");
    ActionNode dot_Title [htmlescaper];
    TextNode ("</h1>" +:+ LF +:+ LF +:+ "<form action=" +:+ DQ +:+ "/save/");
    ActionNode dot_Title [urlnormalizer; attrescaper];
    TextNode (DQ +:+ " method=" +:+ DQ +:+ "POST" +:+ DQ +:+ ">" +:+ LF
              +:+ "<div><textarea name=" +:+ DQ +:+ "body" +:+ DQ +:+ " rows=" +:+ DQ +:+ "20" +:+ DQ
              +:+ " cols=" +:+ DQ +:+ "80" +:+ DQ +:+ ">");
    ActionNode printf_s_Body [rcdataescaper];
    TextNode ("</textarea></div>" +:+ LF
              +:+ "<div><input type=" +:+ DQ +:+ "submit" +:+ DQ +:+ " value=" +:+ DQ +:+ "Save" +:+ DQ
              +:+ "></div>" +:+ LF +:+ "</form>") ].

Definition view_template : Template :=
  [ TextNode (LF +:+ TAB +:+ "<h1>");
    ActionNode dot_Title [htmlescaper];
    TextNode ("</h1>" +:+ LF +:+ "<p>[<a href=" +:+ DQ +:+ "/edit/");
    ActionNode dot_Title [urlnormalizer; attrescaper];
    TextNode (DQ +:+ ">edit</a>]</p>" +:+ LF +:+ "<div>");
    ActionNode printf_s_Body [htmlescaper];
    TextNode ("</div>" +:+ LF) ].

(** [templates], as [init] leaves it once [setup] has written the two files,
    with the escapers of the first execution. *)
Definition templates : list (string * Template) :=
  [("edit.html", edit_template); ("view.html", view_template)].

Definition save (p : Page) (fs : os.FS) : os.FS * option os.PathError :=
  let filename := Title p +:+ ".txt" in
  os.WriteFile filename (Body p) 0x180 (* 0600 *) fs.

Definition loadPage (title : string) (fs : os.FS) : os.FS * (Page + os.PathError) :=
  let filename := title +:+ ".txt" in
  match os.ReadFile filename fs with
  | (fs1, inr err) => (fs1, inr err)
  | (fs1, inl body) => (fs1, inl {| Title := title; Body := body |})
  end.

Definition renderTemplate (w : http.ResponseWriter) (tmpl : string) (p : Page) : http.ResponseWriter :=
  match template.ExecuteTemplate templates w (tmpl +:+ ".html") p with
  | (w1, Some err) => http.Error w1 (Error err) http.StatusInternalServerError
  | (w1, None) => w1
  end.

(** A handler receives the response writer, the request and the title, and
    acts on the store. *)
Definition handler : Type := http.ResponseWriter -> http.Request -> string -> os.FS -> os.FS * http.ResponseWriter.

Definition viewHandler : handler := fun w r title fs =>
  match loadPage title fs with
  | (fs1, inr err) => (fs1, http.Redirect w r ("/edit/" +:+ title) http.StatusFound)
  | (fs1, inl p) => (fs1, renderTemplate w "view" p)
  end.

Definition editHandler : handler := fun w r title fs =>
  match loadPage title fs with
  | (fs1, inr err) => (fs1, renderTemplate w "edit" {| Title := title; Body := [] |})
  | (fs1, inl p) => (fs1, renderTemplate w "edit" p)
  end.

Definition saveHandler : handler := fun w r title fs =>
  let body := http.FormValue r "body" in
  let p := {| Title := title; Body := list_byte_of_string body |} in
  match save p fs with
  | (fs1, Some err) => (fs1, http.Error w (Error err) http.StatusInternalServerError)
  | (fs1, None) => (fs1, http.Redirect w r ("/view/" +:+ title) http.StatusFound)
  end.

(** [m[2]] is in range: a match of [validPath] has three entries
    ([FindStringSubmatch_validPath_length]). *)
Definition makeHandler (fn : handler) : http.ResponseWriter -> http.Request -> os.FS -> os.FS * http.ResponseWriter :=
  fun w r fs =>
    match FindStringSubmatch validPath (http.URL_Path r) with
    | None => (fs, http.NotFound w r)
    | Some m => fn w r (nth 2 m "") fs
    end.

Definition makeFile (name content : string) (fs : os.FS) : os.FS :=
  match os.Create name fs with
  | (fs1, inl out) => fst (os.File_WriteString out content fs1)
  | (fs1, inr err) => fs1
  end.

Definition setup (fs : os.FS) : os.FS :=
  let fs1 := makeFile "edit.html" edit_html fs in
  makeFile "view.html" view_html fs1.

(** How [init] ends: [template.Must] panics on an error of [ParseFiles],
    with the message of a read error or with the parse error of a template;
    otherwise [templates] holds the trees parsed from the texts on disk.  A
    text outside the template language modelled here leaves the end of [init]
    open. *)
Inductive started : Type :=
| Panicked (message : string)
| PanickedParse (name : string)
| Loaded (ts : list (string * Template))
| Undetermined (name : string).

(** [template.Must(t, err)]. *)
Definition Must (r : list (string * Template) + ParseFilesError) : started :=
  match r with
  | inl ts => Loaded ts
  | inr (ReadError err) => Panicked (Error err)
  | inr (ParseError name) => PanickedParse name
  | inr (NotCovered name) => Undetermined name
  end.

Definition init (fs : os.FS) : os.FS * started :=
  let fs1 := setup fs in
  let (fs2, r) := template.ParseFiles ["edit.html"; "view.html"] fs1 in
  (fs2, Must r).

(** ** Titles, paths and stores, as the specification speaks of them *)

(** A character of the class [[a-zA-Z0-9]]. *)
Definition is_alnum (a : ascii) : bool :=
  let n := nat_of_ascii a in
  (Nat.leb 97 n && Nat.leb n 122) || (Nat.leb 65 n && Nat.leb n 90) || (Nat.leb 48 n && Nat.leb n 57).

Fixpoint all_alnum (s : string) : bool :=
  match s with
  | EmptyString => true
  | String a s' => is_alnum a && all_alnum s'
  end.

(** A title "matches [[a-zA-Z0-9]+]". *)
Definition valid_title (t : string) : Prop := t <> "" /\ all_alnum t = true.

(** Follows the specification's words, "the path must match
    [^/(view|edit|save)/([a-zA-Z0-9]+)$] exactly": a slash, one of the three
    actions, a slash, and a title of one or more alphanumerics, and nothing
    else. *)
Definition spec_valid_path (path : string) : Prop :=
  exists action title,
    In action ["view"; "edit"; "save"] /\ valid_title title /\
    path = "/" +:+ action +:+ "/" +:+ title.

(** The owner may read and write the file. *)
Definition owner_rw (i : os.inode) : Prop :=
  os.has (os.mode i) os.S_IRUSR = true /\ os.has (os.mode i) os.S_IWUSR = true.

(** The store takes [n] bytes under [name]: the name is not too long, the
    store is mounted read-write, the file is absent or open to its owner, and
    the bytes fit once the file is truncated. *)
Definition accepts (fs : os.FS) (name : string) (n : nat) : Prop :=
  String.length name <= os.NAME_MAX /\
  os.readonly fs = false /\
  match os.files fs !! name with
  | Some i => owner_rw i /\ n <= length (os.data i) + os.free fs
  | None => n <= os.free fs
  end.

(** ** What the operations compute, in closed form *)

(** A run of one or more alphanumerics. *)
Definition run_ok (s : string) : bool :=
  match s with EmptyString => false | String _ _ => all_alnum s end.

(** The registers [validPath] leaves when the input, after its first slash,
    is [verb], a slash and a run of alphanumerics. *)
Definition branch (verb s1 : string) : option caps :=
  match strip_prefix verb s1 with
  | Some s2 =>
      match strip_prefix "/" s2 with
      | Some s3 =>
          if run_ok s3
          then Some [(0, (0, 6 + String.length s3)); (2, (6, 6 + String.length s3)); (1, (1, 5))]
          else None
      | None => None
      end
  | None => None
  end.

Definition old_mode (fs : os.FS) (name : string) (perm : Z) : Z :=
  match os.files fs !! name with Some i => os.mode i | None => perm end.

Definition old_size (fs : os.FS) (name : string) : nat :=
  match os.files fs !! name with Some i => length (os.data i) | None => 0 end.

(** The store once [b] has replaced the contents of [name]: a file that was
    there keeps its mode, a new one gets [perm]. *)
Definition written (name : string) (b : list byte) (perm : Z) (fs : os.FS) : os.FS :=
  {| os.files := <[name := {| os.data := b; os.mode := old_mode fs name perm |}]> (os.files fs);
     os.readonly := os.readonly fs;
     os.free := os.free fs + old_size fs name - length b |}.

Definition status_or_ok (w : http.ResponseWriter) : Z :=
  match http.status w with Some c => c | None => http.StatusOK end.

(** The text of the edit page, given what stands for the title in the
    heading, for the title in the form's target and for the body. *)
Definition edit_page (title_text title_url body_text : string) : string :=
  LF +:+ "<h1>Editing " +:+ title_text +:+ "</h1>" +:+ LF
  +:+ LF
  +:+ "<form action=" +:+ DQ +:+ "/save/" +:+ title_url +:+ DQ +:+ " method=" +:+ DQ +:+ "POST" +:+ DQ +:+ ">" +:+ LF
  +:+ "<div><textarea name=" +:+ DQ +:+ "body" +:+ DQ +:+ " rows=" +:+ DQ +:+ "20" +:+ DQ
  +:+ " cols=" +:+ DQ +:+ "80" +:+ DQ +:+ ">" +:+ body_text +:+ "</textarea></div>" +:+ LF
  +:+ "<div><input type=" +:+ DQ +:+ "submit" +:+ DQ +:+ " value=" +:+ DQ +:+ "Save" +:+ DQ +:+ "></div>" +:+ LF
  +:+ "</form>".

(** The text of the view page. *)
Definition view_page (title_text title_url body_text : string) : string :=
  LF +:+ TAB +:+ "<h1>" +:+ title_text +:+ "</h1>" +:+ LF
  +:+ "<p>[<a href=" +:+ DQ +:+ "/edit/" +:+ title_url +:+ DQ +:+ ">edit</a>]</p>" +:+ LF
  +:+ "<div>" +:+ body_text +:+ "</div>" +:+ LF.

(** ** Escaped text, as an HTML parser reads it *)

(** The characters that open or close markup or an attribute value, and NUL. *)
Definition is_markup (a : ascii) : bool :=
  existsb (Ascii.eqb a) ["000"; "034"; "039"; "<"; ">"]%char.

(** The character references of [htmlReplacementTable], after their [&],
    with the character each stands for. *)
Definition references : list (string * ascii) :=
  [("amp;", "&"%char); ("lt;", "<"%char); ("gt;", ">"%char);
   ("#34;", "034"%char); ("#39;", "039"%char); ("#43;", "+"%char)].

Fixpoint reference_at (refs : list (string * ascii)) (s : string) : option (nat * ascii) :=
  match refs with
  | [] => None
  | (name, a) :: refs' =>
      match strip_prefix name s with
      | Some _ => Some (String.length name, a)
      | None => reference_at refs' s
      end
  end.

(** Character data only: no markup character occurs, and every [&] starts a
    character reference. *)
Fixpoint html_text (s : string) : bool :=
  match s with
  | EmptyString => true
  | String a s' =>
      (if Ascii.eqb a "&"
       then match reference_at references s' with Some _ => true | None => false end
       else negb (is_markup a))
      && html_text s'
  end.

(** The characters a browser shows for escaped text: each character reference
    stands for its character.  [skip] counts the characters of a reference
    still to be passed over. *)
Fixpoint html_unescape_from (skip : nat) (s : string) : string :=
  match s with
  | EmptyString => ""
  | String a s' =>
      match skip with
      | S k => html_unescape_from k s'
      | O =>
          if Ascii.eqb a "&"
          then match reference_at references s' with
               | Some (n, c) => String c (html_unescape_from n s')
               | None => String a (html_unescape_from 0 s')
               end
          else String a (html_unescape_from 0 s')
      end
  end.

Definition html_unescape (s : string) : string := html_unescape_from 0 s.

Fixpoint nul_free (s : string) : bool :=
  match s with
  | EmptyString => true
  | String a s' => negb (Ascii.eqb a "000") && nul_free s'
  end.

(** The store takes both template files: it is mounted read-write, a
    template file that exists is open to its owner, and there is room for the
    two texts. *)
Definition bootstrap_ok (fs : os.FS) : Prop :=
  os.readonly fs = false
  /\ (forall name i, name = "edit.html" \/ name = "view.html" ->
                     os.files fs !! name = Some i -> owner_rw i)
  /\ String.length edit_html + String.length view_html <= os.free fs.

(** The request [r] with the form field [key] set to the single value [v]. *)
Definition with_field (r : http.Request) (key v : string) : http.Request :=
  {| http.Method := http.Method r; http.URL_Path := http.URL_Path r;
     http.Form := <[key := [v]]> (http.Form r) |}.

(** ** Stores and requests used as examples *)

Definition empty_store : os.FS := {| os.files := ∅; os.readonly := false; os.free := 4096 |}.

Definition readonly_store : os.FS := {| os.files := ∅; os.readonly := true; os.free := 4096 |}.

(** The store after ["hello=world"] was saved as [TestPage]. *)
Definition test_store : os.FS :=
  written "TestPage.txt" (list_byte_of_string "hello=world") 0x180 empty_store.

Definition test_page : Page :=
  {| Title := "TestPage"; Body := list_byte_of_string "hello=world" |}.

(** [TestPage.txt] exists and its owner may write but not read it (0200). *)
Definition writeonly_store : os.FS :=
  {| os.files := {["TestPage.txt" := {| os.data := list_byte_of_string "old"; os.mode := 0x80 |}]};
     os.readonly := false; os.free := 4096 |}.

(** [TestPage.txt] exists and is readable by everyone (0644). *)
Definition shared_store : os.FS :=
  {| os.files := {["TestPage.txt" := {| os.data := list_byte_of_string "old"; os.mode := 0x1a4 |}]};
     os.readonly := false; os.free := 4096 |}.

(** [edit.html] exists with a text of the administrator's own (0644). *)
Definition custom_store : os.FS :=
  {| os.files := {["edit.html" := {| os.data := list_byte_of_string "<h1>mine</h1>";
                                     os.mode := 0x1a4 |}]};
     os.readonly := false; os.free := 4096 |}.

(** A store with room for twenty more bytes. *)
Definition cramped_store : os.FS := {| os.files := ∅; os.readonly := false; os.free := 20 |}.

(** A valid title of 252 bytes, whose file name has 256. *)
Definition long_title : string := string_of_list_ascii (repeat "a"%char 252).

(** A store with room for ten more bytes. *)
Definition full_store : os.FS := {| os.files := ∅; os.readonly := false; os.free := 10 |}.

Definition get (path : string) : http.Request :=
  {| http.Method := "GET"; http.URL_Path := path; http.Form := ∅ |}.

Definition post (path : string) (form : gmap string (list string)) : http.Request :=
  {| http.Method := "POST"; http.URL_Path := path; http.Form := form |}.


(** ** Partial writes, invariants and startup conditions *)

(** The handler [fn], run on valid titles only. *)
Definition only_valid (fn : handler) : handler := fun w r title fs =>
  if run_ok title then fn w r title fs else (fs, w).

(** The error of a write that found no room. *)
Definition write_error (name : string) : os.PathError :=
  {| os.Op := "write"; os.Path := name; os.Err := os.ENOSPC |}.

(** The store after the first [n] bytes of [b] have replaced the contents of [name]. *)
Definition cut_short (name : string) (b : list byte) (perm : Z) (n : nat) (fs : os.FS) : os.FS :=
  {| os.files := <[name := {| os.data := take n b; os.mode := old_mode fs name perm |}]> (os.files fs);
     os.readonly := os.readonly fs;
     os.free := os.free fs + old_size fs name - n |}.

(** No page file is open to group or others. *)
Definition pages_private (fs : os.FS) : Prop :=
  forall title i, valid_title title -> os.files fs !! (title +:+ ".txt") = Some i ->
                  Z.land (os.mode i) 0x3f (* 0077 *) = 0%Z.

(** The store once as much of [b] as fits has replaced the contents of [name]. *)
Definition filled (name : string) (b : list byte) (perm : Z) (fs : os.FS) : os.FS :=
  cut_short name b perm (Nat.min (length b) (old_size fs name + os.free fs)) fs.

(** The template files are absent or open to their owner, on a store mounted
    read-write. *)
Definition templates_writable (fs : os.FS) : Prop :=
  os.readonly fs = false
  /\ (forall name i, name = "edit.html" \/ name = "view.html" ->
                     os.files fs !! name = Some i -> owner_rw i).

(** The lengths at which a prefix of [edit_html], of [view_html], ends inside
    an action: after the left delimiter and before the end of the right one. *)
Definition edit_html_cut (n : nat) : bool :=
  (Nat.leb 15 n && Nat.leb n 22) || (Nat.leb 52 n && Nat.leb n 59)
  || (Nat.leb 126 n && Nat.leb n 144).

Definition view_html_cut (n : nat) : bool :=
  (Nat.leb 8 n && Nat.leb n 15) || (Nat.leb 43 n && Nat.leb n 50)
  || (Nat.leb 74 n && Nat.leb n 92).

(** The prefix of length [n] of [text] does not parse when [cut n], and
    parses otherwise. *)
Definition prefix_parse (text : string) (cut : nat -> bool) (n : nat) : bool :=
  match template.Parse (substring 0 n text), cut n with
  | template.Malformed, true => true
  | template.Parsed _, false => true
  | _, _ => false
  end.

(** * Properties *)

(** ** Strings *)

Lemma strip_prefix_Some w s s' : strip_prefix w s = Some s' <-> s = w +:+ s'.
Proof.
  revert s. induction w as [|a w IH]; intros s; simpl.
  - split; [intros [= ->] | intros ->]; reflexivity.
  - destruct s as [|b s]; [split; discriminate|].
    destruct (Ascii.eqb_spec a b) as [->|Hne].
    + rewrite IH. split; [intros ->; reflexivity | intros [= ->]; reflexivity].
    + split; [discriminate | intros [= Hab _]; congruence].
Qed.

Lemma strip_prefix_app w s : strip_prefix w (w +:+ s) = Some s.
Proof. apply strip_prefix_Some. reflexivity. Qed.

Lemma substring_all s : substring 0 (String.length s) s = s.
Proof. induction s as [|a s IH]; simpl; [reflexivity | rewrite IH; reflexivity]. Qed.

Lemma orelse_None_r {A} (x : option A) : orelse x None = x.
Proof. destruct x; reflexivity. Qed.

(** ** The router *)

Example validPath_source : regexp.source validPath = "^/(edit|save|view)/([a-zA-Z0-9]+)$".
Proof. reflexivity. Qed.

Example validPath_view :
  FindStringSubmatch validPath "/view/Front9" = Some ["/view/Front9"; "view"; "Front9"].
Proof. reflexivity. Qed.

Example validPath_traversal : FindStringSubmatch validPath "/nonexistent/../../etc/passwd" = None.
Proof. reflexivity. Qed.

Example validPath_dots : FindStringSubmatch validPath "/view/../../etc/passwd" = None.
Proof. reflexivity. Qed.

Example validPath_empty_title : FindStringSubmatch validPath "/edit/" = None.
Proof. reflexivity. Qed.

Example validPath_trailing_newline : FindStringSubmatch validPath ("/edit/a" +:+ LF) = None.
Proof. reflexivity. Qed.

Lemma is_alnum_class a : in_class [("a", "z"); ("A", "Z"); ("0", "9")]%char a = is_alnum a.
Proof.
  unfold in_class, in_range, is_alnum; simpl.
  rewrite orb_false_r, orb_assoc. reflexivity.
Qed.

Lemma run_ok_valid s : run_ok s = true <-> valid_title s.
Proof.
  unfold valid_title. destruct s; simpl; split.
  - discriminate.
  - intros [H _]. congruence.
  - intros H. split; [discriminate | exact H].
  - intros [_ H]. exact H.
Qed.

(** Greedy repetition of a one-character matcher, followed by something that
    only accepts the end of the input: it succeeds exactly on a run that
    reaches the end. *)
Lemma plus_loop_alnum (m : matcher) (k : cont) :
  (forall pos s k' c,
     m pos s k' c = match s with
                    | String a s' => if is_alnum a then k' (S pos) s' c else None
                    | EmptyString => None
                    end) ->
  (forall pos a s c, k pos (String a s) c = None) ->
  forall n s pos c, String.length s <= n ->
    plus_loop m k n pos s c = if run_ok s then k (pos + String.length s) "" c else None.
Proof.
  intros Hm Hk. induction n as [|n IH]; intros s pos c Hlen.
  - destruct s; [cbn [plus_loop]; rewrite Hm; reflexivity | simpl in Hlen; lia].
  - destruct s as [|a s]; [cbn [plus_loop]; rewrite Hm; reflexivity|].
    cbn [plus_loop]. rewrite Hm.
    cbn [run_ok all_alnum]. destruct (is_alnum a); [|reflexivity].
    cbn [andb].
    replace (Nat.ltb (String.length s) (String.length (String a s))) with true
      by (symmetry; apply Nat.ltb_lt; simpl; lia).
    rewrite IH by (simpl in Hlen; lia).
    destruct s as [|b s].
    + simpl. f_equal. lia.
    + rewrite Hk, orelse_None_r. cbn [run_ok].
      replace (S pos + String.length (String b s)) with (pos + String.length (String a (String b s)))
        by (simpl; lia).
      reflexivity.
Qed.

Lemma rmatch_validPath p :
  rmatch validPath 0 p (fun pos' _ c => Some ((0, (0, pos')) :: c)) []
  = match strip_prefix "/" p with
    | Some s1 => orelse (branch "edit" s1) (orelse (branch "save" s1) (branch "view" s1))
    | None => None
    end.
Proof.
  unfold validPath. cbn [rmatch Nat.eqb String.length Nat.add].
  destruct (strip_prefix "/" p) as [s1|]; [|reflexivity].
  unfold branch.
  repeat match goal with
  | |- context [strip_prefix ?v s1] => destruct (strip_prefix v s1) as [?s2|]
  end.
  all: cbn [orelse].
  all: repeat match goal with
  | |- context [strip_prefix "/" ?s] => destruct (strip_prefix "/" s) as [?s3|]
  end.
  all: cbn [orelse].
  all: repeat (rewrite plus_loop_alnum;
               [ | intros ? u ? ?; destruct u; [reflexivity | rewrite is_alnum_class; reflexivity]
                 | reflexivity | lia ]).
  all: reflexivity.
Qed.

(** [^] only matches at offset 0, so later start offsets never match. *)
Lemma search_validPath_later s : forall pos, search validPath (S pos) s = None.
Proof.
  induction s as [|a s IH]; intros pos; cbn [search]; unfold validPath; cbn [rmatch Nat.eqb].
  - reflexivity.
  - apply IH.
Qed.

Lemma search_validPath p :
  search validPath 0 p = rmatch validPath 0 p (fun pos' _ c => Some ((0, (0, pos')) :: c)) [].
Proof.
  destruct p as [|a p]; cbn [search];
    destruct (rmatch validPath 0 _ _ []); try reflexivity.
  apply search_validPath_later.
Qed.

Lemma branch_Some verb s1 c :
  branch verb s1 = Some c ->
  exists t, s1 = verb +:+ "/" +:+ t /\ valid_title t.
Proof.
  unfold branch. destruct (strip_prefix verb s1) as [s2|] eqn:E1; [|discriminate].
  destruct (strip_prefix "/" s2) as [s3|] eqn:E2; [|discriminate].
  destruct (run_ok s3) eqn:E3; [|discriminate].
  intros _. exists s3. apply strip_prefix_Some in E1, E2. subst.
  split; [reflexivity | apply run_ok_valid, E3].
Qed.

Lemma branch_match verb t :
  run_ok t = true ->
  branch verb (verb +:+ "/" +:+ t)
  = Some [(0, (0, 6 + String.length t)); (2, (6, 6 + String.length t)); (1, (1, 5))].
Proof. intros Ht. unfold branch. rewrite !strip_prefix_app, Ht. reflexivity. Qed.

(** Whatever [validPath] matches has the shape the specification asks for. *)
Lemma FindStringSubmatch_validPath_shape p m :
  FindStringSubmatch validPath p = Some m -> spec_valid_path p.
Proof.
  unfold FindStringSubmatch. rewrite search_validPath, rmatch_validPath.
  destruct (strip_prefix "/" p) as [s1|] eqn:E; [|discriminate].
  apply strip_prefix_Some in E. subst p.
  destruct (branch "edit" s1) as [c|] eqn:B1; [|destruct (branch "save" s1) as [c|] eqn:B2;
    [|destruct (branch "view" s1) as [c|] eqn:B3; [|discriminate]]]; intros _.
  - apply branch_Some in B1 as (t & -> & Ht). exists "edit", t. simpl; auto.
  - apply branch_Some in B2 as (t & -> & Ht). exists "save", t. simpl; auto.
  - apply branch_Some in B3 as (t & -> & Ht). exists "view", t. simpl; auto.
Qed.

Ltac route_submatches :=
  cbv beta iota fix delta [String.append];
  cbn [orelse NumSubexp validPath Nat.max seq map submatch register Nat.eqb slice Nat.sub Nat.add
       substring];
  rewrite Nat.sub_0_r, !substring_all; reflexivity.

(** Every path of that shape is matched, and the submatches are the whole
    path, the action and the title. *)
Lemma FindStringSubmatch_validPath_match action title :
  In action ["view"; "edit"; "save"] -> valid_title title ->
  FindStringSubmatch validPath ("/" +:+ action +:+ "/" +:+ title)
  = Some ["/" +:+ action +:+ "/" +:+ title; action; title].
Proof.
  intros Hin Ht. apply run_ok_valid in Ht.
  unfold FindStringSubmatch. rewrite search_validPath, rmatch_validPath, strip_prefix_app.
  destruct Hin as [<-|[<-|[<-|[]]]].
  - change (branch "edit" ("view" +:+ "/" +:+ title)) with (@None caps).
    change (branch "save" ("view" +:+ "/" +:+ title)) with (@None caps).
    rewrite branch_match by exact Ht. route_submatches.
  - rewrite branch_match by exact Ht. route_submatches.
  - change (branch "edit" ("save" +:+ "/" +:+ title)) with (@None caps).
    rewrite branch_match by exact Ht. route_submatches.
Qed.

(** [m[2]] in [makeHandler] is in range. *)
Lemma FindStringSubmatch_validPath_length p m :
  FindStringSubmatch validPath p = Some m -> length m = 3.
Proof.
  unfold FindStringSubmatch. destruct (search validPath 0 p); [|discriminate].
  intros [= <-]. reflexivity.
Qed.

Lemma NotFound_status w r :
  http.status w = None -> http.status (http.NotFound w r) = Some http.StatusNotFound.
Proof.
  intros H. unfold http.NotFound, http.Error, http.Fprintln, http.Write, http.WriteHeader.
  simpl. rewrite H. reflexivity.
Qed.

(** C2. A request whose path does not match
    [^/(view|edit|save)/([a-zA-Z0-9]+)$] gets no match from the router: the
    response is [http.NotFound]'s, status 404, the store is left as it was,
    and the wrapped handler is not run, so that any other handler in its
    place gives the same.  A request whose path does match runs the handler
    on the title, the alphanumeric run after the second slash. *)
Theorem makeHandler_guard (fn : handler) (w : http.ResponseWriter) (r : http.Request) (fs : os.FS) :
  (~ spec_valid_path (http.URL_Path r) ->
     FindStringSubmatch validPath (http.URL_Path r) = None
     /\ makeHandler fn w r fs = (fs, http.NotFound w r)
     /\ (http.status w = None ->
         http.status (snd (makeHandler fn w r fs)) = Some http.StatusNotFound)
     /\ (forall fn' : handler, makeHandler fn' w r fs = makeHandler fn w r fs))
  /\ (forall action title,
        In action ["view"; "edit"; "save"] -> valid_title title ->
        http.URL_Path r = "/" +:+ action +:+ "/" +:+ title ->
        makeHandler fn w r fs = fn w r title fs).
Proof.
  split.
  - intros Hno.
    assert (Hnone : FindStringSubmatch validPath (http.URL_Path r) = None).
    { destruct (FindStringSubmatch validPath (http.URL_Path r)) as [m|] eqn:E; [|reflexivity].
      exfalso. apply Hno. eapply FindStringSubmatch_validPath_shape, E. }
    unfold makeHandler. rewrite Hnone. repeat split.
    intros Hw. apply NotFound_status, Hw.
  - intros action title Hin Ht Hp. unfold makeHandler.
    rewrite Hp, FindStringSubmatch_validPath_match by assumption. reflexivity.
Qed.

(** [validPath] matches exactly the paths the specification describes. *)
Lemma spec_valid_path_matched p :
  spec_valid_path p <-> exists m, FindStringSubmatch validPath p = Some m.
Proof.
  split.
  - intros (action & title & Hin & Ht & ->). eexists.
    apply FindStringSubmatch_validPath_match; assumption.
  - intros [m H]. eapply FindStringSubmatch_validPath_shape, H.
Qed.

Lemma makeHandler_guard_witness :
  makeHandler saveHandler http.fresh (get "/save/../../etc/passwd") empty_store
  = (empty_store, http.NotFound http.fresh (get "/save/../../etc/passwd"))
  /\ makeHandler viewHandler http.fresh (get "/view/TestPage") empty_store
     = viewHandler http.fresh (get "/view/TestPage") "TestPage" empty_store.
Proof.
  split.
  - apply (makeHandler_guard saveHandler http.fresh (get "/save/../../etc/passwd") empty_store).
    intros H. apply spec_valid_path_matched in H as [m H]. vm_compute in H. discriminate.
  - apply (makeHandler_guard viewHandler http.fresh (get "/view/TestPage") empty_store)
      with (action := "view").
    + simpl; auto.
    + split; [discriminate | reflexivity].
    + reflexivity.
Defined.

(** ** The file system *)

Lemma short_name name : String.length name <= os.NAME_MAX -> Nat.ltb os.NAME_MAX (String.length name) = false.
Proof. intros H. apply Nat.ltb_ge, H. Qed.

Lemma OpenFile_long name flag perm fs :
  os.NAME_MAX < String.length name ->
  os.OpenFile name flag perm fs = (fs, inr (os.open_error name os.ENAMETOOLONG)).
Proof. intros H. unfold os.OpenFile. apply Nat.ltb_lt in H. rewrite H. reflexivity. Qed.

Lemma OpenFile_truncating name flag perm fs n :
  os.wants_write flag = true -> os.has flag os.O_CREATE = true -> os.has flag os.O_TRUNC = true ->
  accepts fs name n ->
  os.OpenFile name flag perm fs
  = ({| os.files := <[name := {| os.data := []; os.mode := old_mode fs name perm |}]> (os.files fs);
        os.readonly := os.readonly fs;
        os.free := os.free fs + old_size fs name |},
     inl {| os.fname := name |}).
Proof.
  intros Hw Hc Ht (Hlen & Hro & Hacc). unfold os.OpenFile, old_mode, old_size, os.denied.
  rewrite (short_name name Hlen), Hw, Hc, Ht, Hro. destruct (os.files fs !! name) as [i|].
  - destruct Hacc as [[Hr Hwr] _]. rewrite Hr, Hwr. simpl.
    rewrite andb_false_r. reflexivity.
  - simpl. rewrite Nat.add_0_r. reflexivity.
Qed.

Lemma OpenFile_readonly name flag perm fs :
  String.length name <= os.NAME_MAX ->
  os.wants_write flag = true -> os.has flag os.O_CREATE = true -> os.readonly fs = true ->
  os.OpenFile name flag perm fs = (fs, inr (os.open_error name os.EROFS)).
Proof.
  intros Hlen Hw Hc Hro. unfold os.OpenFile. rewrite (short_name name Hlen), Hw, Hc, Hro.
  destruct (os.files fs !! name); reflexivity.
Qed.

Lemma File_Write_fits name b m fs :
  os.files fs !! name = Some {| os.data := []; os.mode := m |} ->
  length b <= os.free fs ->
  os.File_Write {| os.fname := name |} b fs
  = ({| os.files := <[name := {| os.data := b; os.mode := m |}]> (os.files fs);
        os.readonly := os.readonly fs;
        os.free := os.free fs - length b |},
     (length b, None)).
Proof.
  intros Hl Hfit. unfold os.File_Write. cbn [os.fname]. rewrite Hl.
  cbn [os.data os.mode length Nat.add].
  rewrite Nat.min_l by lia.
  rewrite firstn_all, drop_nil, app_nil_r, Nat.ltb_irrefl, Nat.add_0_r.
  reflexivity.
Qed.

(** A store that accepts the bytes takes them all: the file then holds
    exactly [b]. *)
Lemma WriteFile_accepts name b perm fs :
  accepts fs name (length b) ->
  os.WriteFile name b perm fs = (written name b perm fs, None).
Proof.
  intros Hacc. unfold os.WriteFile.
  rewrite (OpenFile_truncating name (Z.lor os.O_WRONLY (Z.lor os.O_CREATE os.O_TRUNC)) perm fs _
             eq_refl eq_refl eq_refl Hacc).
  erewrite File_Write_fits.
  - unfold written. cbn [os.files os.readonly os.free]. rewrite insert_insert_eq. reflexivity.
  - cbn [os.files]. apply lookup_insert_eq.
  - cbn [os.free]. destruct Hacc as (_ & _ & Hacc). unfold old_size.
    destruct (os.files fs !! name); lia.
Qed.

(** A write that reports no error has written every byte. *)
Lemma File_Write_ok name b m fs fs1 n :
  os.files fs !! name = Some {| os.data := []; os.mode := m |} ->
  os.File_Write {| os.fname := name |} b fs = (fs1, (n, None)) ->
  os.files fs1 = <[name := {| os.data := b; os.mode := m |}]> (os.files fs).
Proof.
  intros Hl. unfold os.File_Write. cbn [os.fname]. rewrite Hl. cbn [os.data os.mode length Nat.add].
  destruct (Nat.ltb_spec (Nat.min (length b) (os.free fs)) (length b)) as [Hlt|Hge]; [discriminate|].
  intros [= <- _]. cbn [os.files].
  rewrite firstn_all2 by lia. rewrite drop_nil, app_nil_r. reflexivity.
Qed.

Lemma WriteFile_ok name b perm fs fs1 :
  os.WriteFile name b perm fs = (fs1, None) ->
  os.files fs1 = <[name := {| os.data := b; os.mode := old_mode fs name perm |}]> (os.files fs).
Proof.
  unfold os.WriteFile, os.OpenFile, old_mode.
  change (os.wants_write (Z.lor os.O_WRONLY (Z.lor os.O_CREATE os.O_TRUNC))) with true.
  change (os.has (Z.lor os.O_WRONLY (Z.lor os.O_CREATE os.O_TRUNC)) os.O_CREATE) with true.
  change (os.has (Z.lor os.O_WRONLY (Z.lor os.O_CREATE os.O_TRUNC)) os.O_TRUNC) with true.
  cbn [andb].
  destruct (Nat.ltb os.NAME_MAX (String.length name)); [discriminate|].
  destruct (os.files fs !! name) as [i|] eqn:E.
  - destruct (os.readonly fs); [discriminate|].
    destruct (os.denied _ i); [discriminate|].
    match goal with |- context [os.File_Write ?f b ?s] =>
      destruct (os.File_Write f b s) as [fs2 [n err]] eqn:W end.
    intros [= <- ->].
    eapply File_Write_ok in W; [|cbn [os.files]; apply lookup_insert_eq].
    rewrite W. cbn [os.files]. apply insert_insert_eq.
  - destruct (os.readonly fs); [discriminate|].
    match goal with |- context [os.File_Write ?f b ?s] =>
      destruct (os.File_Write f b s) as [fs2 [n err]] eqn:W end.
    intros [= <- ->].
    eapply File_Write_ok in W; [|cbn [os.files]; apply lookup_insert_eq].
    rewrite W. cbn [os.files]. apply insert_insert_eq.
Qed.

Lemma WriteFile_readonly name b perm fs :
  String.length name <= os.NAME_MAX ->
  os.readonly fs = true ->
  os.WriteFile name b perm fs = (fs, Some (os.open_error name os.EROFS)).
Proof.
  intros Hlen Hro. unfold os.WriteFile.
  rewrite (OpenFile_readonly name (Z.lor os.O_WRONLY (Z.lor os.O_CREATE os.O_TRUNC)) perm fs
             Hlen eq_refl eq_refl Hro).
  reflexivity.
Qed.

(** Reading leaves the store as it is. *)
Lemma ReadFile_frame name fs : fst (os.ReadFile name fs) = fs.
Proof.
  unfold os.ReadFile, os.OpenFile.
  destruct (Nat.ltb os.NAME_MAX (String.length name)); [reflexivity|].
  destruct (os.files fs !! name) as [i|] eqn:E; simpl.
  - destruct (os.denied os.O_RDONLY i); simpl; [reflexivity|]. rewrite E. reflexivity.
  - reflexivity.
Qed.

Lemma ReadFile_readable name fs i :
  String.length name <= os.NAME_MAX ->
  os.files fs !! name = Some i -> os.has (os.mode i) os.S_IRUSR = true ->
  os.ReadFile name fs = (fs, inl (os.data i)).
Proof.
  intros Hlen E Hr. unfold os.ReadFile, os.OpenFile, os.denied.
  rewrite (short_name name Hlen), E. simpl. rewrite Hr. simpl.
  rewrite E. reflexivity.
Qed.

Lemma ReadFile_absent name fs :
  String.length name <= os.NAME_MAX ->
  os.files fs !! name = None ->
  os.ReadFile name fs = (fs, inr (os.open_error name os.ENOENT)).
Proof.
  intros Hlen E. unfold os.ReadFile, os.OpenFile. rewrite (short_name name Hlen), E. reflexivity.
Qed.

Lemma ReadFile_long name fs :
  os.NAME_MAX < String.length name ->
  os.ReadFile name fs = (fs, inr (os.open_error name os.ENAMETOOLONG)).
Proof. intros H. unfold os.ReadFile. rewrite OpenFile_long by exact H. reflexivity. Qed.

(** Every way [os.ReadFile] can end. *)
Lemma ReadFile_cases name fs :
  os.ReadFile name fs
  = (fs, if Nat.ltb os.NAME_MAX (String.length name)
         then inr (os.open_error name os.ENAMETOOLONG)
         else match os.files fs !! name with
              | None => inr (os.open_error name os.ENOENT)
              | Some i =>
                  if os.has (os.mode i) os.S_IRUSR then inl (os.data i)
                  else inr (os.open_error name os.EACCES)
              end).
Proof.
  destruct (Nat.ltb_spec os.NAME_MAX (String.length name)) as [Hgt|Hle].
  - apply ReadFile_long, Hgt.
  - destruct (os.files fs !! name) as [i|] eqn:E.
    + destruct (os.has (os.mode i) os.S_IRUSR) eqn:Hr.
      * apply ReadFile_readable; assumption.
      * unfold os.ReadFile, os.OpenFile, os.denied. rewrite (short_name name Hle), E. simpl.
        rewrite Hr. reflexivity.
    + apply ReadFile_absent; assumption.
Qed.

Lemma WriteFile_long name b perm fs :
  os.NAME_MAX < String.length name ->
  os.WriteFile name b perm fs = (fs, Some (os.open_error name os.ENAMETOOLONG)).
Proof. intros H. unfold os.WriteFile. rewrite OpenFile_long by exact H. reflexivity. Qed.

Lemma loadPage_frame title fs : fst (loadPage title fs) = fs.
Proof.
  unfold loadPage. pose proof (ReadFile_frame (title +:+ ".txt") fs) as H.
  destruct (os.ReadFile (title +:+ ".txt") fs) as [fs1 [b|e]]; exact H.
Qed.

(** A page that was loaded holds what the page file holds. *)
Lemma loadPage_data title fs fs1 p :
  loadPage title fs = (fs1, inl p) ->
  os.data <$> os.files fs !! (title +:+ ".txt") = Some (Body p).
Proof.
  unfold loadPage. rewrite ReadFile_cases.
  destruct (Nat.ltb os.NAME_MAX (String.length (title +:+ ".txt"))); [discriminate|].
  destruct (os.files fs !! (title +:+ ".txt")) as [i|]; [|discriminate].
  destruct (os.has (os.mode i) os.S_IRUSR); [|discriminate].
  intros [= _ <-]. reflexivity.
Qed.

Lemma loadPage_Title title fs fs1 p : loadPage title fs = (fs1, inl p) -> Title p = title.
Proof.
  unfold loadPage. destruct (os.ReadFile (title +:+ ".txt") fs) as [fs2 [b|e]]; [|discriminate].
  intros [= _ <-]. reflexivity.
Qed.

(** A write that reports no error was to a name that is not too long. *)
Lemma WriteFile_ok_name name b perm fs fs1 :
  os.WriteFile name b perm fs = (fs1, None) -> String.length name <= os.NAME_MAX.
Proof.
  intros H. destruct (Nat.le_gt_cases (String.length name) os.NAME_MAX) as [Hle|Hgt]; [exact Hle|].
  rewrite WriteFile_long in H by exact Hgt. discriminate.
Qed.

Lemma empty_store_accepts name n :
  String.length name <= os.NAME_MAX -> n <= 4096 -> accepts empty_store name n.
Proof.
  intros Hlen H. split; [exact Hlen|]. split; [reflexivity|].
  unfold empty_store; cbn [os.files os.free].
  rewrite lookup_empty. exact H.
Qed.

Lemma OpenFile_frame name flag perm fs name' :
  name' <> name ->
  os.files (fst (os.OpenFile name flag perm fs)) !! name' = os.files fs !! name'.
Proof.
  intros Hne. unfold os.OpenFile.
  destruct (os.files fs !! name) as [i|];
    repeat match goal with |- context [if ?c then _ else _] => destruct c end;
    cbn [fst os.files]; rewrite ?lookup_insert_ne by congruence; reflexivity.
Qed.

Lemma File_Write_frame f b fs name' :
  name' <> os.fname f ->
  os.files (fst (os.File_Write f b fs)) !! name' = os.files fs !! name'.
Proof.
  intros Hne. unfold os.File_Write. destruct (os.files fs !! os.fname f) as [i|];
    cbn [fst os.files]; rewrite ?lookup_insert_ne by congruence; reflexivity.
Qed.

Lemma OpenFile_fname name flag perm fs fs1 f :
  os.OpenFile name flag perm fs = (fs1, inl f) -> os.fname f = name.
Proof.
  unfold os.OpenFile. destruct (os.files fs !! name) as [i|];
    repeat match goal with |- context [if ?c then _ else _] => destruct c end;
    intros [= _ <-]; reflexivity.
Qed.

Lemma OpenFile_error name flag perm fs fs1 e :
  os.OpenFile name flag perm fs = (fs1, inr e) -> fs1 = fs.
Proof.
  unfold os.OpenFile. destruct (os.files fs !! name) as [i|];
    repeat match goal with |- context [if ?c then _ else _] => destruct c end;
    intros [= <- _]; reflexivity.
Qed.

Lemma WriteFile_frame name b perm fs name' :
  name' <> name ->
  os.files (fst (os.WriteFile name b perm fs)) !! name' = os.files fs !! name'.
Proof.
  intros Hne. unfold os.WriteFile.
  pose proof (OpenFile_frame name (Z.lor os.O_WRONLY (Z.lor os.O_CREATE os.O_TRUNC)) perm fs name' Hne) as Ho.
  destruct (os.OpenFile name _ perm fs) as [fs1 [f|e]] eqn:E; cbn [fst] in *.
  - apply OpenFile_fname in E.
    pose proof (File_Write_frame f b fs1 name') as Hw. rewrite E in Hw. specialize (Hw Hne).
    destruct (os.File_Write f b fs1) as [fs2 [n err]]. cbn [fst] in *. congruence.
  - exact Ho.
Qed.

Lemma length_list_byte_of_string s : length (list_byte_of_string s) = String.length s.
Proof.
  unfold list_byte_of_string. rewrite length_map.
  induction s as [|a s IH]; simpl; [reflexivity | rewrite IH; reflexivity].
Qed.

Lemma makeFile_accepts name content fs :
  accepts fs name (String.length content) ->
  makeFile name content fs = written name (list_byte_of_string content) 0x1b6 fs.
Proof.
  intros Hacc. unfold makeFile, os.Create.
  rewrite (OpenFile_truncating name (Z.lor os.O_RDWR (Z.lor os.O_CREATE os.O_TRUNC)) 0x1b6 fs _
             eq_refl eq_refl eq_refl Hacc).
  unfold os.File_WriteString. erewrite File_Write_fits.
  - unfold written. cbn [fst os.files os.readonly os.free]. rewrite insert_insert_eq. reflexivity.
  - cbn [os.files]. apply lookup_insert_eq.
  - cbn [os.free]. rewrite length_list_byte_of_string. destruct Hacc as [_ Hacc]. unfold old_size.
    destruct (os.files fs !! name); lia.
Qed.

Lemma makeFile_frame name content fs name' :
  name' <> name ->
  os.files (makeFile name content fs) !! name' = os.files fs !! name'.
Proof.
  intros Hne. unfold makeFile, os.Create.
  pose proof (OpenFile_frame name (Z.lor os.O_RDWR (Z.lor os.O_CREATE os.O_TRUNC)) 0x1b6 fs name' Hne) as Ho.
  destruct (os.OpenFile name _ _ fs) as [fs1 [f|e]] eqn:E; cbn [fst] in *.
  - apply OpenFile_fname in E. unfold os.File_WriteString.
    rewrite File_Write_frame by congruence. exact Ho.
  - exact Ho.
Qed.

Lemma ParseFiles_frame names : forall fs, fst (ParseFiles names fs) = fs.
Proof.
  induction names as [|name names IH]; intros fs; cbn [ParseFiles]; [reflexivity|].
  pose proof (ReadFile_frame name fs) as Hr.
  destruct (os.ReadFile name fs) as [fs1 [b|e]]; cbn [fst] in Hr; subst fs1; [|reflexivity].
  destruct (Parse (string_of_list_byte b)); [|reflexivity..].
  specialize (IH fs). destruct (ParseFiles names fs) as [fs2 [ts|e]]; exact IH.
Qed.

(** [init] does to the store what [setup] does, whatever the parsing gives. *)
Lemma init_store fs : fst (init fs) = setup fs.
Proof.
  unfold init. cbv zeta.
  pose proof (ParseFiles_frame ["edit.html"; "view.html"] (setup fs)) as H.
  destruct (ParseFiles _ (setup fs)) as [fs2 r]; exact H.
Qed.

Lemma init_cases fs :
  init fs = (setup fs, Must (snd (ParseFiles ["edit.html"; "view.html"] (setup fs)))).
Proof.
  unfold init. cbv zeta.
  pose proof (ParseFiles_frame ["edit.html"; "view.html"] (setup fs)) as H.
  destruct (ParseFiles _ (setup fs)) as [fs2 r]; cbn [fst snd] in *; subst fs2; reflexivity.
Qed.

Lemma accepts_after_written fs name1 (b1 : list byte) perm name2 n2 :
  String.length name2 <= os.NAME_MAX ->
  name1 <> name2 -> os.readonly fs = false ->
  (forall i, os.files fs !! name2 = Some i -> owner_rw i) ->
  length b1 + n2 <= os.free fs ->
  accepts (written name1 b1 perm fs) name2 n2.
Proof.
  intros Hlen Hne Hro Hrw Hroom. split; [exact Hlen|]. split; [exact Hro|].
  unfold written. cbn [os.files os.free]. rewrite lookup_insert_ne by exact Hne.
  destruct (os.files fs !! name2) as [i|]; [split; [apply Hrw; reflexivity|]|]; lia.
Qed.

Lemma accepts_roomy fs name n :
  String.length name <= os.NAME_MAX ->
  os.readonly fs = false -> (forall i, os.files fs !! name = Some i -> owner_rw i) ->
  n <= os.free fs -> accepts fs name n.
Proof.
  intros Hlen Hro Hrw Hroom. split; [exact Hlen|]. split; [exact Hro|].
  destruct (os.files fs !! name) as [i|]; [split; [apply Hrw; reflexivity|]|]; lia.
Qed.

Lemma setup_accepts fs :
  bootstrap_ok fs ->
  setup fs
  = written "view.html" (list_byte_of_string view_html) 0x1b6
      (written "edit.html" (list_byte_of_string edit_html) 0x1b6 fs).
Proof.
  intros (Hro & Hrw & Hroom). unfold setup. cbv zeta.
  rewrite (makeFile_accepts "edit.html" edit_html fs).
  - apply makeFile_accepts, accepts_after_written.
    + vm_compute. lia.
    + discriminate.
    + exact Hro.
    + intros i. apply Hrw. auto.
    + rewrite length_list_byte_of_string. exact Hroom.
  - apply accepts_roomy.
    + vm_compute. lia.
    + exact Hro.
    + intros i. apply Hrw. auto.
    + eapply Nat.le_trans; [apply Nat.le_add_r | exact Hroom].
Qed.

(** ** The page store *)

(** C1, as amended.  For every title [t] matching [[a-zA-Z0-9]+] and every
    body [b]: whenever saving [Page(t, b)] reports no error, and the page file
    was absent or readable by its owner, loading [t] afterwards succeeds and
    returns the page with title [t] and body exactly [b].  In a store that
    accepts the write (the file name [t.txt] is at most 255 bytes long, the
    store is mounted read-write, the page file is absent or readable and
    writable by its owner, and there is room for the body) the save does
    succeed, and so does the load. *)
Theorem save_then_load (t : string) (b : list byte) (fs : os.FS) :
  valid_title t ->
  (forall fs1,
     save {| Title := t; Body := b |} fs = (fs1, None) ->
     (forall i, os.files fs !! (t +:+ ".txt") = Some i -> os.has (os.mode i) os.S_IRUSR = true) ->
     loadPage t fs1 = (fs1, inl {| Title := t; Body := b |}))
  /\ (accepts fs (t +:+ ".txt") (length b) ->
      exists fs1,
        save {| Title := t; Body := b |} fs = (fs1, None)
        /\ loadPage t fs1 = (fs1, inl {| Title := t; Body := b |})).
Proof.
  intros _.
  assert (Hload : forall fs1,
            save {| Title := t; Body := b |} fs = (fs1, None) ->
            (forall i, os.files fs !! (t +:+ ".txt") = Some i ->
                       os.has (os.mode i) os.S_IRUSR = true) ->
            loadPage t fs1 = (fs1, inl {| Title := t; Body := b |})).
  { intros fs1 Hsave Hread. unfold save in Hsave. cbv zeta in Hsave. cbn [Title Body] in Hsave.
    pose proof (WriteFile_ok_name _ _ _ _ _ Hsave) as Hlen.
    apply WriteFile_ok in Hsave. unfold loadPage.
    rewrite (ReadFile_readable _ _ {| os.data := b; os.mode := old_mode fs (t +:+ ".txt") 0x180 |}).
    - reflexivity.
    - exact Hlen.
    - rewrite Hsave. apply lookup_insert_eq.
    - cbn [os.mode]. unfold old_mode.
      destruct (os.files fs !! (t +:+ ".txt")) as [i|]; [apply Hread | ]; reflexivity. }
  split; [exact Hload|].
  intros Hacc. exists (written (t +:+ ".txt") b 0x180 fs).
  assert (Hsave : save {| Title := t; Body := b |} fs = (written (t +:+ ".txt") b 0x180 fs, None)).
  { unfold save. cbn [Title Body]. apply WriteFile_accepts, Hacc. }
  split; [exact Hsave|]. apply Hload; [exact Hsave|].
  intros i Hi. destruct Hacc as (_ & _ & Hacc). rewrite Hi in Hacc. apply Hacc.
Qed.

Lemma save_then_load_witness :
  loadPage "TestPage" test_store = (test_store, inl test_page)
  /\ exists fs1,
       save test_page empty_store = (fs1, None)
       /\ loadPage "TestPage" fs1 = (fs1, inl test_page).
Proof.
  destruct (save_then_load "TestPage" (list_byte_of_string "hello=world") empty_store)
    as [Hload Hboth].
  - split; [discriminate | reflexivity].
  - split.
    + apply Hload; [reflexivity|]. intros i Hi. vm_compute in Hi. discriminate.
    + apply Hboth, empty_store_accepts; [vm_compute; lia | simpl; lia].
Defined.

(** C1, as stated, fails where the store does not accept the write: on a
    read-only store [save] reports an error and [load] finds no file; on a
    file its owner may write but not read, [save] succeeds and [load] is
    refused; and a valid title of 252 bytes is refused by both, its file name
    being too long. *)
Lemma save_then_load_counterexample :
  (save test_page readonly_store = (readonly_store, Some (os.open_error "TestPage.txt" os.EROFS))
   /\ loadPage "TestPage" readonly_store
      = (readonly_store, inr (os.open_error "TestPage.txt" os.ENOENT)))
  /\ (snd (save test_page writeonly_store) = None
      /\ snd (loadPage "TestPage" (fst (save test_page writeonly_store)))
         = inr (os.open_error "TestPage.txt" os.EACCES))
  /\ (all_alnum long_title = true
      /\ save {| Title := long_title; Body := [] |} empty_store
         = (empty_store, Some (os.open_error (long_title +:+ ".txt") os.ENAMETOOLONG))
      /\ loadPage long_title empty_store
         = (empty_store, inr (os.open_error (long_title +:+ ".txt") os.ENAMETOOLONG))).
Proof. vm_compute. repeat split. Qed.

(** C6, as amended.  For every page with an alphanumeric title, whenever
    [save] reports no error the file [title + ".txt"] holds exactly the body:
    a file that was absent has been created with mode 0600, a file that was
    present has been truncated and keeps the permission bits it had, and no
    other file is touched.  [save] reports no error in a store that accepts
    the write: the file name is at most 255 bytes long, the store is mounted
    read-write, the file is absent or readable and writable by its owner, and
    there is room for the body.  Whatever the store and the body, a page of
    the same title touches no other file: the title alone determines the
    file. *)
Theorem save_writes_body (p : Page) (fs : os.FS) :
  valid_title (Title p) ->
  (forall fs1,
     save p fs = (fs1, None) ->
     os.files fs1 !! (Title p +:+ ".txt")
     = Some {| os.data := Body p;
               os.mode := match os.files fs !! (Title p +:+ ".txt") with
                          | Some i => os.mode i
                          | None => 0x180
                          end |}
     /\ (forall name, name <> Title p +:+ ".txt" -> os.files fs1 !! name = os.files fs !! name))
  /\ (accepts fs (Title p +:+ ".txt") (length (Body p)) -> snd (save p fs) = None)
  /\ (forall q fs' name,
        Title q = Title p -> name <> Title p +:+ ".txt" ->
        os.files (fst (save q fs')) !! name = os.files fs' !! name).
Proof.
  intros _. split; [|split].
  - intros fs1 Hsave. unfold save in Hsave. cbv zeta in Hsave.
    apply WriteFile_ok in Hsave. rewrite Hsave. split.
    + apply lookup_insert_eq.
    + intros name Hne. apply lookup_insert_ne. congruence.
  - intros Hacc. unfold save. cbv zeta. rewrite WriteFile_accepts by exact Hacc. reflexivity.
  - intros q fs' name Hq Hne. unfold save. cbv zeta. rewrite Hq. apply WriteFile_frame, Hne.
Qed.

Lemma save_writes_body_witness :
  os.files test_store !! "TestPage.txt"
  = Some {| os.data := list_byte_of_string "hello=world"; os.mode := 0x180 |}
  /\ snd (save test_page empty_store) = None.
Proof.
  destruct (save_writes_body test_page empty_store) as (Hfile & Hok & _).
  - split; [discriminate | reflexivity].
  - split.
    + apply (Hfile test_store). reflexivity.
    + apply Hok, empty_store_accepts; [vm_compute; lia | simpl; lia].
Defined.

(** When the store runs out of room the file is left cut short, and [save]
    reports it. *)
Example save_on_full_store :
  snd (save test_page full_store)
  = Some {| os.Op := "write"; os.Path := "TestPage.txt"; os.Err := os.ENOSPC |}
  /\ os.data <$> os.files (fst (save test_page full_store)) !! "TestPage.txt"
     = Some (list_byte_of_string "hello=worl").
Proof. vm_compute. split; reflexivity. Qed.

(** C6, as stated, fails on a page file that exists with other permission
    bits: [save] succeeds and the file stays readable by its group (0644); and
    on a read-only store [save] writes nothing. *)
Lemma save_writes_body_counterexample :
  (snd (save test_page shared_store) = None
   /\ os.files (fst (save test_page shared_store)) !! "TestPage.txt"
      = Some {| os.data := list_byte_of_string "hello=world"; os.mode := 0x1a4 |}
   /\ os.has 0x1a4 0x20 = true)
  /\ (snd (save test_page readonly_store) = Some (os.open_error "TestPage.txt" os.EROFS)
      /\ os.files (fst (save test_page readonly_store)) !! "TestPage.txt" = None).
Proof. vm_compute. repeat split. Qed.

(** ** Responses *)

Lemma Error_fresh msg code :
  http.Error http.fresh msg code
  = {| http.header := <["X-Content-Type-Options" := "nosniff"]>
                        (<["Content-Type" := "text/plain; charset=utf-8"]> (delete "Content-Length" ∅));
       http.status := Some code;
       http.body := msg +:+ LF |}.
Proof. reflexivity. Qed.

Lemma Error_fresh_Location msg code :
  http.header (http.Error http.fresh msg code) !! "Location" = None.
Proof. reflexivity. Qed.

Lemma Redirect_fresh_status r url code :
  http.status (http.Redirect http.fresh r url code) = Some code.
Proof.
  unfold http.Redirect.
  change (bool_decide (is_Some (http.header http.fresh !! "Content-Type"))) with false.
  cbn [negb andb].
  destruct (String.eqb (http.Method r) "GET"), (String.eqb (http.Method r) "HEAD"); reflexivity.
Qed.

Lemma Redirect_fresh_Location r url code :
  http.header (http.Redirect http.fresh r url code) !! "Location" = Some url.
Proof.
  unfold http.Redirect.
  change (bool_decide (is_Some (http.header http.fresh !! "Content-Type"))) with false.
  cbn [negb andb].
  destruct (String.eqb (http.Method r) "GET"), (String.eqb (http.Method r) "HEAD");
    cbn; simplify_map_eq; reflexivity.
Qed.

Create HintDb response discriminated.

#[local] Hint Resolve Error_fresh_Location Redirect_fresh_status Redirect_fresh_Location : response.

(** ** Rendering *)

Example edit_template_source : template.source edit_template = edit_html.
Proof. reflexivity. Qed.

Example view_template_source : template.source view_template = view_html.
Proof. reflexivity. Qed.

Lemma append_cons (x : ascii) (a b : string) : String x a +:+ b = String x (a +:+ b).
Proof. reflexivity. Qed.

Lemma append_assoc_s (a b c : string) : (a +:+ b) +:+ c = a +:+ (b +:+ c).
Proof.
  induction a as [|x a IH]; [reflexivity|]. rewrite !append_cons, IH. reflexivity.
Qed.

Lemma Write_eq b w :
  http.Write b w
  = {| http.header := http.header w; http.status := Some (status_or_ok w);
       http.body := http.body w +:+ b |}.
Proof.
  unfold http.Write, http.WriteHeader, status_or_ok. destruct w as [h [c|] bd]; reflexivity.
Qed.

(** Executing a template appends the output of its nodes, in order. *)
Lemma Execute_eq t p : forall w,
  t <> [] ->
  Execute t w p
  = {| http.header := http.header w; http.status := Some (status_or_ok w);
       http.body := http.body w +:+ String.concat "" (map (fun n => output n p) t) |}.
Proof.
  unfold Execute. induction t as [|n t IH]; intros w Hne; [congruence|].
  cbn [fold_left map]. destruct t as [|n' t].
  - cbn [fold_left map String.concat]. apply Write_eq.
  - rewrite IH by discriminate. rewrite Write_eq. cbn [http.header http.status http.body].
    unfold status_or_ok at 1. cbn [http.status].
    rewrite append_assoc_s. reflexivity.
Qed.

Lemma renderTemplate_edit p :
  renderTemplate http.fresh "edit" p
  = {| http.header := ∅; http.status := Some http.StatusOK;
       http.body := edit_page (htmlReplacer (Title p)) (htmlReplacer (urlNormalizer (Title p)))
                      (htmlReplacer (string_of_list_byte (Body p))) |}.
Proof.
  unfold renderTemplate, ExecuteTemplate.
  change (Lookup templates ("edit" +:+ ".html")) with (Some edit_template). cbv beta iota.
  rewrite Execute_eq by discriminate. reflexivity.
Qed.

Lemma renderTemplate_view p :
  renderTemplate http.fresh "view" p
  = {| http.header := ∅; http.status := Some http.StatusOK;
       http.body := view_page (htmlReplacer (Title p)) (htmlReplacer (urlNormalizer (Title p)))
                      (htmlReplacer (string_of_list_byte (Body p))) |}.
Proof.
  unfold renderTemplate, ExecuteTemplate.
  change (Lookup templates ("view" +:+ ".html")) with (Some view_template). cbv beta iota.
  rewrite Execute_eq by discriminate. reflexivity.
Qed.

(** A template that was not loaded is a server error. *)
Example renderTemplate_undefined :
  http.status (renderTemplate http.fresh "index" {| Title := "A"; Body := [] |})
  = Some http.StatusInternalServerError.
Proof. reflexivity. Qed.

Lemma htmlReplacement_alnum a : is_alnum a = true -> htmlReplacement a = None.
Proof. destruct a as [[] [] [] [] [] [] [] []]; vm_compute; congruence. Qed.

Lemma url_keep_alnum a s : is_alnum a = true -> url_keep a s = true.
Proof.
  intros H. unfold url_keep. rewrite is_alnum_class, H. rewrite orb_true_r. reflexivity.
Qed.

(** The escapers leave an alphanumeric title as it is. *)
Lemma htmlReplacer_alnum s : all_alnum s = true -> htmlReplacer s = s.
Proof.
  induction s as [|a s IH]; [reflexivity|]. cbn [all_alnum htmlReplacer].
  intros [Ha Hs]%andb_prop. rewrite htmlReplacement_alnum, IH by assumption. reflexivity.
Qed.

Lemma urlNormalizer_alnum s : all_alnum s = true -> urlNormalizer s = s.
Proof.
  induction s as [|a s IH]; [reflexivity|]. cbn [all_alnum urlNormalizer].
  intros [Ha Hs]%andb_prop. rewrite url_keep_alnum, IH by assumption. reflexivity.
Qed.

(** Escaped text holds no markup. *)
Lemma htmlReplacer_html_text s : html_text (htmlReplacer s) = true.
Proof.
  induction s as [|a s IH]; [reflexivity|].
  destruct a as [[] [] [] [] [] [] [] []]; exact IH.
Qed.

(** Unescaping gives back the text, byte for byte, when it holds no NUL. *)
Lemma htmlReplacer_unescape s : nul_free s = true -> html_unescape (htmlReplacer s) = s.
Proof.
  unfold html_unescape. induction s as [|a s IH]; [reflexivity|].
  destruct a as [[] [] [] [] [] [] [] []]; cbn [nul_free Ascii.eqb Bool.eqb negb andb];
    intros H; try discriminate H;
    (etransitivity; [|apply (f_equal (String _)), (IH H)]); reflexivity.
Qed.

(** C8. Rendering a page in either template gives the template text with the
    escaped title in its two places and, in place of the body action, the body
    HTML-escaped.  The escaped body holds no markup: no [<], [>], quote,
    apostrophe or NUL, and every [&] in it starts a character reference; read
    back as character data it is the body itself, when the body holds no NUL
    (a NUL becomes U+FFFD).  An alphanumeric title is its own escaped form. *)
Theorem renderTemplate_escapes_body (p : Page) :
  renderTemplate http.fresh "view" p
  = {| http.header := ∅; http.status := Some http.StatusOK;
       http.body := view_page (htmlReplacer (Title p)) (htmlReplacer (urlNormalizer (Title p)))
                      (htmlReplacer (string_of_list_byte (Body p))) |}
  /\ renderTemplate http.fresh "edit" p
     = {| http.header := ∅; http.status := Some http.StatusOK;
          http.body := edit_page (htmlReplacer (Title p)) (htmlReplacer (urlNormalizer (Title p)))
                         (htmlReplacer (string_of_list_byte (Body p))) |}
  /\ html_text (htmlReplacer (string_of_list_byte (Body p))) = true
  /\ (nul_free (string_of_list_byte (Body p)) = true ->
      html_unescape (htmlReplacer (string_of_list_byte (Body p))) = string_of_list_byte (Body p))
  /\ (valid_title (Title p) ->
      htmlReplacer (Title p) = Title p /\ htmlReplacer (urlNormalizer (Title p)) = Title p).
Proof.
  split; [apply renderTemplate_view|]. split; [apply renderTemplate_edit|].
  split; [apply htmlReplacer_html_text|]. split; [apply htmlReplacer_unescape|].
  intros [_ Ht]. rewrite urlNormalizer_alnum, htmlReplacer_alnum by assumption. split; reflexivity.
Qed.

Lemma renderTemplate_escapes_body_witness :
  html_unescape (htmlReplacer "<script>alert('x')</script>") = "<script>alert('x')</script>"
  /\ htmlReplacer "TestPage" = "TestPage".
Proof.
  destruct (renderTemplate_escapes_body
              {| Title := "TestPage"; Body := list_byte_of_string "<script>alert('x')</script>" |})
    as (_ & _ & _ & Hback & Htitle).
  split.
  - apply Hback. reflexivity.
  - apply Htitle. split; [discriminate | reflexivity].
Defined.

Example view_of_markup :
  http.body (renderTemplate http.fresh "view"
               {| Title := "TestPage"; Body := list_byte_of_string "<script>alert('x')</script>" |})
  = view_page "TestPage" "TestPage" "&lt;script&gt;alert(&#39;x&#39;)&lt;/script&gt;".
Proof. reflexivity. Qed.

Example view_after_save :
  http.body (snd (viewHandler http.fresh (get "/view/TestPage") "TestPage" test_store))
  = view_page "TestPage" "TestPage" "hello=world".
Proof. reflexivity. Qed.

(** ** The handlers *)

(** C3. For every title that the router passes on and every form, the save
    handler builds [Page(title, body)] from the form value and saves it.  If
    saving fails the response is 500 with the error's text and no [Location]
    header; if it succeeds the response is a 302 redirect to [/view/<title>].
    The store is in both cases the one [save] left. *)
Theorem saveHandler_persists_or_fails (r : http.Request) (title : string) (fs : os.FS) :
  valid_title title ->
  (forall fs1 err,
     save {| Title := title; Body := list_byte_of_string (http.FormValue r "body") |} fs
     = (fs1, Some err) ->
     saveHandler http.fresh r title fs
     = (fs1, http.Error http.fresh (Error err) http.StatusInternalServerError)
     /\ http.status (snd (saveHandler http.fresh r title fs)) = Some 500%Z
     /\ http.body (snd (saveHandler http.fresh r title fs)) = Error err +:+ LF
     /\ http.header (snd (saveHandler http.fresh r title fs)) !! "Location" = None)
  /\ (forall fs1,
        save {| Title := title; Body := list_byte_of_string (http.FormValue r "body") |} fs
        = (fs1, None) ->
        saveHandler http.fresh r title fs
        = (fs1, http.Redirect http.fresh r ("/view/" +:+ title) http.StatusFound)
        /\ http.status (snd (saveHandler http.fresh r title fs)) = Some 302%Z
        /\ http.header (snd (saveHandler http.fresh r title fs)) !! "Location"
           = Some ("/view/" +:+ title)).
Proof.
  intros _. split.
  - intros fs1 err H. unfold saveHandler. cbv zeta. rewrite H. cbn [snd].
    repeat split.
  - intros fs1 H. unfold saveHandler. cbv zeta. rewrite H. cbn [snd].
    auto with response.
Qed.

Lemma saveHandler_persists_or_fails_witness :
  http.status (snd (saveHandler http.fresh (post "/save/TestPage" {["body" := ["hello=world"]]})
                      "TestPage" readonly_store)) = Some 500%Z
  /\ saveHandler http.fresh (post "/save/TestPage" {["body" := ["hello=world"]]}) "TestPage" empty_store
     = (test_store,
        http.Redirect http.fresh (post "/save/TestPage" {["body" := ["hello=world"]]})
          ("/view/" +:+ "TestPage") http.StatusFound).
Proof.
  assert (Hv : valid_title "TestPage") by (split; [discriminate | reflexivity]).
  split.
  - destruct (saveHandler_persists_or_fails
                (post "/save/TestPage" {["body" := ["hello=world"]]}) "TestPage" readonly_store Hv)
      as [Hfail _].
    apply (Hfail readonly_store (os.open_error "TestPage.txt" os.EROFS)).
    apply WriteFile_readonly; [vm_compute; lia | reflexivity].
  - destruct (saveHandler_persists_or_fails
                (post "/save/TestPage" {["body" := ["hello=world"]]}) "TestPage" empty_store Hv)
      as [_ Hok].
    apply (Hok test_store).
    apply (WriteFile_accepts "TestPage.txt" (list_byte_of_string "hello=world")).
    apply empty_store_accepts; [vm_compute; lia | simpl; lia].
Defined.

(** C4. For every title that the router passes on: when loading the page
    fails, whatever the error, the view handler answers with a 302 redirect to
    [/edit/<title>] and renders nothing; when loading succeeds it renders the
    template [view] with the loaded page: the response has status 200, no
    [Location] header, and its body is the view page of the title with the
    loaded body in it, HTML-escaped.  The store is left as it was. *)
Theorem viewHandler_redirects_or_renders (r : http.Request) (title : string) (fs : os.FS) :
  valid_title title ->
  (forall fs1 err,
     loadPage title fs = (fs1, inr err) ->
     viewHandler http.fresh r title fs
     = (fs, http.Redirect http.fresh r ("/edit/" +:+ title) http.StatusFound)
     /\ http.status (snd (viewHandler http.fresh r title fs)) = Some 302%Z
     /\ http.header (snd (viewHandler http.fresh r title fs)) !! "Location"
        = Some ("/edit/" +:+ title)
     /\ forall tmpl p, tmpl = "view" \/ tmpl = "edit" ->
          snd (viewHandler http.fresh r title fs) <> renderTemplate http.fresh tmpl p)
  /\ (forall fs1 p,
        loadPage title fs = (fs1, inl p) ->
        viewHandler http.fresh r title fs = (fs, renderTemplate http.fresh "view" p)
        /\ Title p = title
        /\ os.data <$> os.files fs !! (title +:+ ".txt") = Some (Body p)
        /\ http.status (snd (viewHandler http.fresh r title fs)) = Some 200%Z
        /\ http.header (snd (viewHandler http.fresh r title fs)) !! "Location" = None
        /\ http.body (snd (viewHandler http.fresh r title fs))
           = view_page title title (htmlReplacer (string_of_list_byte (Body p)))).
Proof.
  intros [_ Halnum]. split.
  - intros fs1 err H. pose proof (loadPage_frame title fs) as Hfr. rewrite H in Hfr.
    cbn [fst] in Hfr. subst fs1.
    unfold viewHandler. rewrite H. cbn [snd].
    repeat split; auto with response.
    intros tmpl p Htmpl Heq. apply (f_equal http.status) in Heq.
    rewrite Redirect_fresh_status in Heq.
    destruct Htmpl as [-> | ->];
      [rewrite renderTemplate_view in Heq | rewrite renderTemplate_edit in Heq]; discriminate.
  - intros fs1 p H. pose proof (loadPage_frame title fs) as Hfr. rewrite H in Hfr.
    cbn [fst] in Hfr. subst fs1.
    pose proof (loadPage_Title _ _ _ _ H) as Ht.
    unfold viewHandler. rewrite H. cbn [snd]. rewrite renderTemplate_view.
    cbn [http.status http.header http.body].
    rewrite Ht, urlNormalizer_alnum, htmlReplacer_alnum by exact Halnum.
    repeat split. eapply loadPage_data, H.
Qed.

Lemma viewHandler_redirects_or_renders_witness :
  viewHandler http.fresh (get "/view/NoSuchPage") "NoSuchPage" empty_store
  = (empty_store,
     http.Redirect http.fresh (get "/view/NoSuchPage") ("/edit/" +:+ "NoSuchPage") http.StatusFound)
  /\ viewHandler http.fresh (get "/view/TestPage") "TestPage" test_store
     = (test_store,
        renderTemplate http.fresh "view"
          {| Title := "TestPage"; Body := list_byte_of_string "hello=world" |})
  /\ http.status (snd (viewHandler http.fresh (get "/view/TestPage") "TestPage" test_store))
     = Some 200%Z
  /\ http.body (snd (viewHandler http.fresh (get "/view/TestPage") "TestPage" test_store))
     = view_page "TestPage" "TestPage" "hello=world".
Proof.
  split.
  - destruct (viewHandler_redirects_or_renders (get "/view/NoSuchPage") "NoSuchPage" empty_store)
      as [Hfail _]; [split; [discriminate | reflexivity]|].
    apply (Hfail empty_store (os.open_error "NoSuchPage.txt" os.ENOENT)).
    unfold loadPage. rewrite ReadFile_absent; [reflexivity | vm_compute; lia | apply lookup_empty].
  - destruct (viewHandler_redirects_or_renders (get "/view/TestPage") "TestPage" test_store)
      as [_ Hok]; [split; [discriminate | reflexivity]|].
    destruct (Hok test_store test_page) as (Hview & _ & _ & Hstatus & _ & Hbody);
      [vm_compute; reflexivity|].
    split; [exact Hview|]. split; [exact Hstatus | exact Hbody].
Defined.



Example editHandler_missing_page :
  http.body (snd (editHandler http.fresh (get "/edit/NoSuchPage") "NoSuchPage" empty_store))
  = edit_page "NoSuchPage" "NoSuchPage" "".
Proof. reflexivity. Qed.

(** C9, as amended.  For every title that the router passes on, a save
    request without a [body] field is treated as saving an empty body: the
    handler does exactly what it does for the request with an empty [body]
    field.  Where the store accepts the write (the file name is not too long,
    the store is mounted read-write, the page file is absent or open to its
    owner) the file [<title>.txt] is written with no content and the response
    is the 302 redirect to [/view/<title>].  Where saving the empty page
    fails, the response is the 500 of any failed save, with the error's text
    and no redirect. *)
Theorem saveHandler_missing_body (r : http.Request) (title : string) (fs : os.FS) :
  valid_title title ->
  http.Form r !! "body" = None ->
  saveHandler http.fresh r title fs = saveHandler http.fresh (with_field r "body" "") title fs
  /\ (accepts fs (title +:+ ".txt") 0 ->
      exists fs1,
        saveHandler http.fresh r title fs
        = (fs1, http.Redirect http.fresh r ("/view/" +:+ title) http.StatusFound)
        /\ os.data <$> os.files fs1 !! (title +:+ ".txt") = Some []
        /\ http.status (snd (saveHandler http.fresh r title fs)) = Some 302%Z
        /\ http.header (snd (saveHandler http.fresh r title fs)) !! "Location"
           = Some ("/view/" +:+ title))
  /\ (forall fs1 err,
        save {| Title := title; Body := [] |} fs = (fs1, Some err) ->
        saveHandler http.fresh r title fs
        = (fs1, http.Error http.fresh (Error err) http.StatusInternalServerError)
        /\ http.status (snd (saveHandler http.fresh r title fs)) = Some 500%Z
        /\ http.body (snd (saveHandler http.fresh r title fs)) = Error err +:+ LF
        /\ http.header (snd (saveHandler http.fresh r title fs)) !! "Location" = None).
Proof.
  intros _ Hform.
  assert (Hv : http.FormValue r "body" = "") by (unfold http.FormValue; rewrite Hform; reflexivity).
  assert (Hv' : http.FormValue (with_field r "body" "") "body" = "").
  { unfold http.FormValue, with_field. cbn [http.Form]. rewrite lookup_insert_eq. reflexivity. }
  split; [|split].
  - unfold saveHandler. cbv zeta. rewrite Hv, Hv'.
    destruct (save _ fs) as [fs1 [err|]]; reflexivity.
  - intros Hacc. exists (written (title +:+ ".txt") [] 0x180 fs).
    assert (Hs : saveHandler http.fresh r title fs
                 = (written (title +:+ ".txt") [] 0x180 fs,
                    http.Redirect http.fresh r ("/view/" +:+ title) http.StatusFound)).
    { unfold saveHandler, save. cbv zeta. cbn [Title Body]. rewrite Hv.
      change (list_byte_of_string "") with (@nil byte).
      rewrite WriteFile_accepts by exact Hacc. reflexivity. }
    rewrite Hs. cbn [snd]. split; [reflexivity|]. split.
    + unfold written; cbn [os.files]. rewrite lookup_insert_eq. reflexivity.
    + auto with response.
  - intros fs1 err H. unfold saveHandler. cbv zeta. rewrite Hv.
    change (list_byte_of_string "") with (@nil byte). rewrite H. cbn [snd].
    repeat split.
Qed.

Lemma saveHandler_missing_body_witness :
  exists fs1,
    saveHandler http.fresh (post "/save/TestPage" ∅) "TestPage" test_store
    = (fs1, http.Redirect http.fresh (post "/save/TestPage" ∅) ("/view/" +:+ "TestPage")
              http.StatusFound)
    /\ os.data <$> os.files fs1 !! "TestPage.txt" = Some [].
Proof.
  destruct (saveHandler_missing_body (post "/save/TestPage" ∅) "TestPage" test_store)
    as (_ & Hok & _).
  - split; [discriminate | reflexivity].
  - apply lookup_empty.
  - destruct Hok as (fs1 & Hs & Hfile & _).
    + split; [vm_compute; lia|]. split; [reflexivity|]. vm_compute. repeat split; lia.
    + exists fs1. split; [exact Hs | exact Hfile].
Defined.

(** C9, as stated, fails on a store that refuses the write: the request
    without a [body] field then gets the 500 of any failed save, no redirect,
    and no file is written. *)
Lemma saveHandler_missing_body_counterexample :
  http.status (snd (saveHandler http.fresh (post "/save/TestPage" ∅) "TestPage" readonly_store))
  = Some 500%Z
  /\ http.header (snd (saveHandler http.fresh (post "/save/TestPage" ∅) "TestPage" readonly_store))
     !! "Location" = None
  /\ os.files (fst (saveHandler http.fresh (post "/save/TestPage" ∅) "TestPage" readonly_store))
     !! "TestPage.txt" = None.
Proof. vm_compute. repeat split. Qed.

(** ** Startup *)

(** C7, as amended.  The bootstrap step writes both template files whether or
    not they exist: in a store that accepts the writes, [edit.html] and
    [view.html] afterwards hold exactly the built-in texts, so a template
    file that was there has its contents replaced; no other file is
    changed. *)
Theorem setup_rewrites_templates (fs : os.FS) :
  bootstrap_ok fs ->
  os.data <$> os.files (setup fs) !! "edit.html" = Some (list_byte_of_string edit_html)
  /\ os.data <$> os.files (setup fs) !! "view.html" = Some (list_byte_of_string view_html)
  /\ (forall name, name <> "edit.html" -> name <> "view.html" ->
                   os.files (setup fs) !! name = os.files fs !! name).
Proof.
  intros Hok. rewrite (setup_accepts fs Hok). unfold written. cbn [os.files]. repeat split.
  - rewrite lookup_insert_ne by discriminate. rewrite lookup_insert_eq. reflexivity.
  - rewrite lookup_insert_eq. reflexivity.
  - intros name He Hv. rewrite !lookup_insert_ne by congruence. reflexivity.
Qed.

Lemma custom_store_bootstrap_ok : bootstrap_ok custom_store.
Proof.
  split; [reflexivity|]. split.
  - intros name i [-> | ->] H; vm_compute in H; [|discriminate].
    injection H as <-. split; reflexivity.
  - vm_compute. lia.
Qed.

Lemma setup_rewrites_templates_witness :
  os.data <$> os.files (setup custom_store) !! "edit.html" = Some (list_byte_of_string edit_html).
Proof. apply (setup_rewrites_templates custom_store), custom_store_bootstrap_ok. Defined.

(** C7, as stated, fails on a template file that exists before startup: its
    contents are replaced by the built-in text. *)
Lemma setup_rewrites_templates_counterexample :
  os.data <$> os.files custom_store !! "edit.html" = Some (list_byte_of_string "<h1>mine</h1>")
  /\ os.data <$> os.files (setup custom_store) !! "edit.html"
     = Some (list_byte_of_string edit_html)
  /\ os.files (setup custom_store) !! "edit.html" <> os.files custom_store !! "edit.html".
Proof. vm_compute. repeat split. discriminate. Qed.

(** ** The scenarios of the specification *)

Example scenario_save_then_view :
  makeHandler saveHandler http.fresh (post "/save/TestPage" {["body" := ["hello=world"]]}) empty_store
  = (test_store,
     http.Redirect http.fresh (post "/save/TestPage" {["body" := ["hello=world"]]}) "/view/TestPage"
       http.StatusFound)
  /\ http.body (snd (makeHandler viewHandler http.fresh (get "/view/TestPage") test_store))
     = view_page "TestPage" "TestPage" "hello=world".
Proof. vm_compute. split; reflexivity. Qed.

Example scenario_view_missing :
  makeHandler viewHandler http.fresh (get "/view/NoSuchPage") empty_store
  = (empty_store, http.Redirect http.fresh (get "/view/NoSuchPage") "/edit/NoSuchPage" http.StatusFound).
Proof. vm_compute. reflexivity. Qed.

(** A valid title of 252 bytes passes the router, but its page can be neither
    saved nor loaded: the file name is too long. *)
Example scenario_long_title :
  http.status (snd (makeHandler saveHandler http.fresh
                      (post ("/save/" +:+ long_title) {["body" := ["x"]]}) empty_store))
  = Some http.StatusInternalServerError
  /\ http.body (snd (makeHandler saveHandler http.fresh
                       (post ("/save/" +:+ long_title) {["body" := ["x"]]}) empty_store))
     = "open " +:+ long_title +:+ ".txt: file name too long" +:+ LF
  /\ http.status (snd (makeHandler viewHandler http.fresh
                         (get ("/view/" +:+ long_title)) empty_store))
     = Some http.StatusFound.
Proof. vm_compute. repeat split. Qed.

Example scenario_traversal :
  http.status (snd (makeHandler viewHandler http.fresh (get "/nonexistent/../../etc/passwd") empty_store))
  = Some http.StatusNotFound.
Proof. reflexivity. Qed.

(** * Further properties *)

(** ** The router *)

Lemma length_append (a b : string) : String.length (a +:+ b) = String.length a + String.length b.
Proof.
  induction a as [|x a IH]; [reflexivity|]. rewrite append_cons. simpl. rewrite IH. reflexivity.
Qed.

Lemma append_same_length (a b u v : string) :
  String.length a = String.length b -> a +:+ u = b +:+ v -> a = b /\ u = v.
Proof.
  revert b. induction a as [|x a IH]; intros [|y b] Hlen H; try discriminate Hlen.
  - split; [reflexivity | exact H].
  - rewrite !append_cons in H. injection H as -> H. injection Hlen as Hlen.
    destruct (IH b Hlen H) as [-> ->]. split; reflexivity.
Qed.

Lemma append_inv_r (a b u : string) : a +:+ u = b +:+ u -> a = b.
Proof.
  intros H. apply (append_same_length a b u u); [|exact H].
  apply (f_equal String.length) in H. rewrite !length_append in H. lia.
Qed.

Lemma FindStringSubmatch_validPath_inv p m :
  FindStringSubmatch validPath p = Some m ->
  exists action title,
    In action ["view"; "edit"; "save"] /\ valid_title title
    /\ p = "/" +:+ action +:+ "/" +:+ title /\ m = [p; action; title].
Proof.
  intros H. destruct (FindStringSubmatch_validPath_shape p m H) as (action & title & Hin & Ht & ->).
  rewrite FindStringSubmatch_validPath_match in H by assumption. injection H as <-.
  exists action, title. auto.
Qed.

(** X1. [validPath] matches a path exactly when the path is [/<action>/<title>]
    with the action one of view, edit and save and the title a non-empty
    alphanumeric run; the submatches are then the whole path, the action and
    the title, so that [m[2]] in [makeHandler] is the title. *)
Theorem validPath_submatches (p : string) (m : list string) :
  FindStringSubmatch validPath p = Some m
  <-> exists action title,
        In action ["view"; "edit"; "save"] /\ valid_title title
        /\ p = "/" +:+ action +:+ "/" +:+ title /\ m = [p; action; title].
Proof.
  split; [apply FindStringSubmatch_validPath_inv|].
  intros (action & title & Hin & Ht & -> & ->).
  apply FindStringSubmatch_validPath_match; assumption.
Qed.

Lemma makeHandler_cases (fn : handler) w r fs :
  (FindStringSubmatch validPath (http.URL_Path r) = None
   /\ makeHandler fn w r fs = (fs, http.NotFound w r))
  \/ (exists action title,
        In action ["view"; "edit"; "save"] /\ valid_title title
        /\ http.URL_Path r = "/" +:+ action +:+ "/" +:+ title
        /\ FindStringSubmatch validPath (http.URL_Path r)
           = Some [http.URL_Path r; action; title]).
Proof.
  destruct (FindStringSubmatch validPath (http.URL_Path r)) as [m|] eqn:E.
  - right. destruct (FindStringSubmatch_validPath_inv _ _ E) as (a & t & Hin & Ht & Hp & ->).
    exists a, t. auto.
  - left. split; [reflexivity|]. unfold makeHandler. rewrite E. reflexivity.
Qed.

(** X2. The wrapped handler is run on alphanumeric titles only: two handlers
    that agree on every valid title give the same wrapped handler, whatever
    they do on other strings. *)
Theorem makeHandler_valid_titles_only (fn fn' : handler) w r fs :
  (forall title, valid_title title -> fn w r title fs = fn' w r title fs) ->
  makeHandler fn w r fs = makeHandler fn' w r fs.
Proof.
  intros Hfn. unfold makeHandler.
  destruct (FindStringSubmatch validPath (http.URL_Path r)) as [m|] eqn:E; [|reflexivity].
  destruct (FindStringSubmatch_validPath_inv _ _ E) as (a & t & Hin & Ht & Hp & ->).
  cbn [nth]. apply Hfn, Ht.
Qed.

Lemma makeHandler_valid_titles_only_witness :
  makeHandler viewHandler http.fresh (get "/view/TestPage") test_store
  = makeHandler (only_valid viewHandler) http.fresh (get "/view/TestPage") test_store.
Proof.
  apply (makeHandler_valid_titles_only viewHandler (only_valid viewHandler)).
  intros title Ht. unfold only_valid. apply run_ok_valid in Ht. rewrite Ht. reflexivity.
Defined.

(** ** Writing and reading files, every outcome *)

Lemma File_Write_empty name (b : list byte) m fs :
  os.files fs !! name = Some {| os.data := []; os.mode := m |} ->
  os.File_Write {| os.fname := name |} b fs
  = ({| os.files := <[name := {| os.data := take (Nat.min (length b) (os.free fs)) b; os.mode := m |}]>
                      (os.files fs);
        os.readonly := os.readonly fs;
        os.free := os.free fs - Nat.min (length b) (os.free fs) |},
     (Nat.min (length b) (os.free fs),
      if Nat.ltb (Nat.min (length b) (os.free fs)) (length b)
      then Some (write_error name) else None)).
Proof.
  intros Hl. unfold os.File_Write. cbn [os.fname]. rewrite Hl.
  cbn [os.data os.mode length Nat.add]. rewrite drop_nil, app_nil_r, Nat.add_0_r.
  rewrite length_take. rewrite (Nat.min_l (_ `min` _) (length b)) by lia. reflexivity.
Qed.

Lemma OpenFile_trunc_cases name flag perm fs :
  os.wants_write flag = true -> os.has flag os.O_CREATE = true -> os.has flag os.O_TRUNC = true ->
  os.OpenFile name flag perm fs
  = if Nat.ltb os.NAME_MAX (String.length name)
    then (fs, inr (os.open_error name os.ENAMETOOLONG))
    else if os.readonly fs then (fs, inr (os.open_error name os.EROFS))
    else match os.files fs !! name with
         | Some i =>
             if os.denied flag i then (fs, inr (os.open_error name os.EACCES))
             else (cut_short name [] perm 0 fs, inl {| os.fname := name |})
         | None => (cut_short name [] perm 0 fs, inl {| os.fname := name |})
         end.
Proof.
  intros Hw Hc Ht. unfold os.OpenFile, cut_short, old_mode, old_size. rewrite Hw, Hc, Ht.
  destruct (Nat.ltb os.NAME_MAX (String.length name)); [reflexivity|].
  cbn [andb]. destruct (os.files fs !! name) as [i|], (os.readonly fs); try reflexivity.
  - destruct (os.denied flag i); [reflexivity|]. rewrite Nat.sub_0_r. reflexivity.
  - rewrite Nat.add_0_r, Nat.sub_0_r. reflexivity.
Qed.

Lemma write_after_trunc name (b : list byte) perm fs :
  os.File_Write {| os.fname := name |} b (cut_short name [] perm 0 fs)
  = (cut_short name b perm (Nat.min (length b) (old_size fs name + os.free fs)) fs,
     (Nat.min (length b) (old_size fs name + os.free fs),
      if Nat.ltb (Nat.min (length b) (old_size fs name + os.free fs)) (length b)
      then Some (write_error name) else None)).
Proof.
  erewrite File_Write_empty by (unfold cut_short; cbn [os.files]; apply lookup_insert_eq).
  unfold cut_short. cbn [os.files os.readonly os.free].
  rewrite insert_insert_eq, Nat.sub_0_r, (Nat.add_comm (os.free fs)).
  repeat f_equal; lia.
Qed.

(** Every way [os.WriteFile] can end. *)
Lemma WriteFile_cases name b perm fs :
  os.WriteFile name b perm fs
  = if Nat.ltb os.NAME_MAX (String.length name)
    then (fs, Some (os.open_error name os.ENAMETOOLONG))
    else if os.readonly fs then (fs, Some (os.open_error name os.EROFS))
    else match os.files fs !! name with
         | Some i =>
             if negb (os.has (os.mode i) os.S_IWUSR) then (fs, Some (os.open_error name os.EACCES))
             else (cut_short name b perm (Nat.min (length b) (old_size fs name + os.free fs)) fs,
                   if Nat.ltb (Nat.min (length b) (old_size fs name + os.free fs)) (length b)
                   then Some (write_error name) else None)
         | None =>
             (cut_short name b perm (Nat.min (length b) (old_size fs name + os.free fs)) fs,
              if Nat.ltb (Nat.min (length b) (old_size fs name + os.free fs)) (length b)
              then Some (write_error name) else None)
         end.
Proof.
  unfold os.WriteFile.
  rewrite (OpenFile_trunc_cases name (Z.lor os.O_WRONLY (Z.lor os.O_CREATE os.O_TRUNC)) perm fs
             eq_refl eq_refl eq_refl).
  destruct (Nat.ltb os.NAME_MAX (String.length name)); [reflexivity|].
  destruct (os.readonly fs); [reflexivity|].
  destruct (os.files fs !! name) as [i|] eqn:E.
  - change (os.denied (Z.lor os.O_WRONLY (Z.lor os.O_CREATE os.O_TRUNC)) i)
      with (negb (os.has (os.mode i) os.S_IWUSR)).
    destruct (negb (os.has (os.mode i) os.S_IWUSR)); [reflexivity|].
    rewrite write_after_trunc. reflexivity.
  - rewrite write_after_trunc. reflexivity.
Qed.


(** ** Pages in the store *)

Lemma txt_inj (t1 t2 : string) : t1 +:+ ".txt" = t2 +:+ ".txt" -> t1 = t2.
Proof. apply append_inv_r. Qed.

Lemma page_not_template (t : string) : t +:+ ".txt" <> "edit.html" /\ t +:+ ".txt" <> "view.html".
Proof.
  split; intros H; apply (f_equal String.length) in H as Hlen; rewrite length_append in Hlen;
    simpl in Hlen; do 6 (destruct t as [|? t]; try (simpl in Hlen; lia));
    cbv [String.append] in H; congruence.
Qed.

Lemma save_cases p fs :
  save p fs
  = os.WriteFile (Title p +:+ ".txt") (Body p) 0x180 fs.
Proof. reflexivity. Qed.

Lemma cut_short_lookup name b perm n fs name' :
  os.files (cut_short name b perm n fs) !! name'
  = if decide (name = name')
    then Some {| os.data := take n b; os.mode := old_mode fs name perm |}
    else os.files fs !! name'.
Proof. unfold cut_short. cbn [os.files]. apply lookup_insert. Qed.

(** What [os.WriteFile] leaves under any name, however it ends. *)
Lemma WriteFile_lookup name b perm fs name' i' :
  os.files (fst (os.WriteFile name b perm fs)) !! name' = Some i' ->
  os.files fs !! name' = Some i'
  \/ (name' = name /\ os.mode i' = old_mode fs name perm
      /\ os.data i' = take (Nat.min (length b) (old_size fs name + os.free fs)) b).
Proof.
  rewrite WriteFile_cases.
  destruct (Nat.ltb os.NAME_MAX (String.length name)); [auto|].
  destruct (os.readonly fs); [auto|].
  assert (Hcut : os.files (cut_short name b perm (Nat.min (length b) (old_size fs name + os.free fs)) fs)
                   !! name' = Some i' ->
                 os.files fs !! name' = Some i'
                 \/ (name' = name /\ os.mode i' = old_mode fs name perm
                     /\ os.data i' = take (Nat.min (length b) (old_size fs name + os.free fs)) b)).
  { rewrite cut_short_lookup. destruct (decide (name = name')) as [<-|Hne]; [|auto].
    intros [= <-]. right. auto. }
  destruct (os.files fs !! name) as [i|] eqn:E; [|exact Hcut].
  destruct (negb (os.has (os.mode i) os.S_IWUSR)); [auto | exact Hcut].
Qed.

Lemma cut_short_old_mode name b perm n fs :
  old_mode (cut_short name b perm n fs) name perm = old_mode fs name perm.
Proof.
  unfold old_mode at 1. rewrite cut_short_lookup.
  destruct (decide (name = name)); [reflexivity | congruence].
Qed.

Lemma cut_short_old_size name (b : list byte) perm n fs :
  n <= length b -> old_size (cut_short name b perm n fs) name = n.
Proof.
  intros Hn. unfold old_size. rewrite cut_short_lookup.
  destruct (decide (name = name)); [|congruence]. cbn [os.data]. rewrite length_take. lia.
Qed.

Lemma cut_short_again name (b1 b2 : list byte) perm n1 n2 fs :
  n1 <= length b1 -> n1 <= old_size fs name + os.free fs ->
  cut_short name b2 perm n2 (cut_short name b1 perm n1 fs) = cut_short name b2 perm n2 fs.
Proof.
  intros H1 H2. unfold cut_short at 1.
  rewrite cut_short_old_mode, cut_short_old_size by exact H1.
  unfold cut_short. cbn [os.files os.readonly os.free]. rewrite insert_insert_eq.
  f_equal. lia.
Qed.

(** A second write of a file, after a write that got as far as opening it. *)
Lemma WriteFile_after_cut name (b1 b2 : list byte) n1 fs :
  String.length name <= os.NAME_MAX ->
  os.readonly fs = false ->
  os.has (old_mode fs name 0x180) os.S_IWUSR = true ->
  n1 <= length b1 -> n1 <= old_size fs name + os.free fs ->
  os.WriteFile name b2 0x180 (cut_short name b1 0x180 n1 fs)
  = (cut_short name b2 0x180 (Nat.min (length b2) (old_size fs name + os.free fs)) fs,
     if Nat.ltb (Nat.min (length b2) (old_size fs name + os.free fs)) (length b2)
     then Some (write_error name) else None).
Proof.
  intros Hlen Hro Hw H1 H2. rewrite WriteFile_cases, (short_name name Hlen).
  change (os.readonly (cut_short name b1 0x180 n1 fs)) with (os.readonly fs). rewrite Hro.
  rewrite cut_short_lookup. destruct (decide (name = name)) as [_|]; [|congruence].
  cbn [os.mode]. rewrite Hw. cbn [negb].
  rewrite cut_short_old_size by exact H1.
  change (os.free (cut_short name b1 0x180 n1 fs)) with (os.free fs + old_size fs name - n1).
  replace (n1 + (os.free fs + old_size fs name - n1)) with (old_size fs name + os.free fs) by lia.
  rewrite cut_short_again by assumption. reflexivity.
Qed.

(** X3. Saving a page replaces what an earlier save of the same title did:
    the store and the error are those of the second save alone, whether the
    first save succeeded, was refused or was cut short. *)
Theorem save_overwrites_earlier_save (p q : Page) (fs : os.FS) :
  valid_title (Title p) -> Title q = Title p ->
  save q (fst (save p fs)) = save q fs.
Proof.
  intros _ Hq. rewrite !save_cases, Hq.
  set (name := Title p +:+ ".txt"). set (b1 := Body p). set (b2 := Body q).
  rewrite (WriteFile_cases name b1).
  destruct (Nat.ltb_spec os.NAME_MAX (String.length name)) as [Hgt|Hlen]; [reflexivity|].
  destruct (os.readonly fs) eqn:Hro; [reflexivity|].
  destruct (os.files fs !! name) as [i|] eqn:E.
  - destruct (os.has (os.mode i) os.S_IWUSR) eqn:Hw; cbn [negb fst]; [|reflexivity].
    rewrite WriteFile_after_cut; try lia; try assumption.
    + rewrite WriteFile_cases, (short_name name Hlen), Hro, E, Hw. reflexivity.
    + unfold old_mode. rewrite E. exact Hw.
  - cbn [fst]. rewrite WriteFile_after_cut; try lia; try assumption.
    + rewrite WriteFile_cases, (short_name name Hlen), Hro, E. reflexivity.
    + unfold old_mode. rewrite E. reflexivity.
Qed.

Lemma save_overwrites_earlier_save_witness :
  save test_page (fst (save {| Title := "TestPage"; Body := list_byte_of_string "old" |} empty_store))
  = save test_page empty_store.
Proof.
  apply (save_overwrites_earlier_save
           {| Title := "TestPage"; Body := list_byte_of_string "old" |} test_page empty_store).
  - split; [discriminate | reflexivity].
  - reflexivity.
Defined.

Lemma loadPage_cases title fs :
  loadPage title fs
  = (fs, if Nat.ltb os.NAME_MAX (String.length (title +:+ ".txt"))
         then inr (os.open_error (title +:+ ".txt") os.ENAMETOOLONG)
         else match os.files fs !! (title +:+ ".txt") with
              | None => inr (os.open_error (title +:+ ".txt") os.ENOENT)
              | Some i =>
                  if os.has (os.mode i) os.S_IRUSR
                  then inl {| Title := title; Body := os.data i |}
                  else inr (os.open_error (title +:+ ".txt") os.EACCES)
              end).
Proof.
  unfold loadPage. cbv zeta. rewrite ReadFile_cases.
  destruct (Nat.ltb os.NAME_MAX (String.length (title +:+ ".txt"))); [reflexivity|].
  destruct (os.files fs !! (title +:+ ".txt")) as [i|]; [|reflexivity].
  destruct (os.has (os.mode i) os.S_IRUSR); reflexivity.
Qed.

Lemma long_title_valid : valid_title long_title.
Proof.
  split; [|vm_compute; reflexivity].
  intros H. apply (f_equal String.length) in H. vm_compute in H. discriminate.
Qed.

(** X4. [loadPage] leaves the store as it was.  A title whose file name
    [<title>.txt] is longer than 255 bytes gives the error of a file name too
    long.  Otherwise a page file that is not there gives the error of a
    missing file; one its owner may not read gives a permission error; and a
    readable one gives the page with the title asked for and the contents of
    the file as its body. *)
Theorem loadPage_outcomes (title : string) (fs : os.FS) :
  valid_title title ->
  fst (loadPage title fs) = fs
  /\ (os.NAME_MAX < String.length (title +:+ ".txt") ->
      snd (loadPage title fs) = inr (os.open_error (title +:+ ".txt") os.ENAMETOOLONG))
  /\ (String.length (title +:+ ".txt") <= os.NAME_MAX ->
      os.files fs !! (title +:+ ".txt") = None ->
      snd (loadPage title fs) = inr (os.open_error (title +:+ ".txt") os.ENOENT))
  /\ (String.length (title +:+ ".txt") <= os.NAME_MAX ->
      forall i, os.files fs !! (title +:+ ".txt") = Some i ->
        snd (loadPage title fs)
        = if os.has (os.mode i) os.S_IRUSR
          then inl {| Title := title; Body := os.data i |}
          else inr (os.open_error (title +:+ ".txt") os.EACCES)).
Proof.
  intros _. rewrite loadPage_cases. cbn [fst snd]. split; [reflexivity|]. split; [|split].
  - intros H. apply Nat.ltb_lt in H. rewrite H. reflexivity.
  - intros H ->. rewrite (short_name _ H). reflexivity.
  - intros H i ->. rewrite (short_name _ H). reflexivity.
Qed.

Lemma loadPage_outcomes_witness :
  snd (loadPage "NoSuchPage" test_store) = inr (os.open_error "NoSuchPage.txt" os.ENOENT)
  /\ snd (loadPage "TestPage" test_store) = inl test_page
  /\ snd (loadPage long_title test_store)
     = inr (os.open_error (long_title +:+ ".txt") os.ENAMETOOLONG).
Proof.
  split; [|split].
  - destruct (loadPage_outcomes "NoSuchPage" test_store) as (_ & _ & H & _).
    + split; [discriminate | reflexivity].
    + apply H; [vm_compute; lia | reflexivity].
  - destruct (loadPage_outcomes "TestPage" test_store) as (_ & _ & _ & H).
    + split; [discriminate | reflexivity].
    + rewrite (H ltac:(vm_compute; lia)
                 {| os.data := list_byte_of_string "hello=world"; os.mode := 0x180 |});
        reflexivity.
  - destruct (loadPage_outcomes long_title test_store long_title_valid) as (_ & H & _).
    apply H. vm_compute. lia.
Defined.

(** X5. Saving one page does not change what loading a page of another title
    returns. *)
Theorem save_leaves_other_pages (p q : Page) (fs : os.FS) :
  valid_title (Title p) -> valid_title (Title q) -> Title p <> Title q ->
  snd (loadPage (Title p) (fst (save q fs))) = snd (loadPage (Title p) fs).
Proof.
  intros _ _ Hne. rewrite !loadPage_cases. cbn [snd]. unfold save. cbv zeta.
  rewrite WriteFile_frame; [reflexivity|]. intros H. apply Hne, txt_inj, H.
Qed.

Lemma save_leaves_other_pages_witness :
  snd (loadPage "TestPage"
         (fst (save {| Title := "Other"; Body := list_byte_of_string "text" |} test_store)))
  = inl test_page.
Proof.
  etransitivity.
  - apply (save_leaves_other_pages test_page
             {| Title := "Other"; Body := list_byte_of_string "text" |} test_store).
    + split; [discriminate | reflexivity].
    + split; [discriminate | reflexivity].
    + discriminate.
  - reflexivity.
Defined.

(** X6. A save that reports an error either failed to open the page file, and
    then the store is as it was, or ran out of room while writing, and then
    the page file holds the part of the body that fitted: the old contents are
    gone in that case. *)
Theorem save_failure (p : Page) (fs fs1 : os.FS) (err : os.PathError) :
  valid_title (Title p) ->
  save p fs = (fs1, Some err) ->
  (os.Op err = "open" /\ fs1 = fs)
  \/ (err = write_error (Title p +:+ ".txt")
      /\ old_size fs (Title p +:+ ".txt") + os.free fs < length (Body p)
      /\ os.data <$> os.files fs1 !! (Title p +:+ ".txt")
         = Some (take (old_size fs (Title p +:+ ".txt") + os.free fs) (Body p))).
Proof.
  intros _. rewrite save_cases, WriteFile_cases.
  set (name := Title p +:+ ".txt"). set (b := Body p).
  assert (Hcut : forall n, n = Nat.min (length b) (old_size fs name + os.free fs) ->
            (cut_short name b 0x180 n fs,
             if Nat.ltb n (length b) then Some (write_error name) else None) = (fs1, Some err) ->
            err = write_error name /\ old_size fs name + os.free fs < length b
            /\ os.data <$> os.files fs1 !! name = Some (take (old_size fs name + os.free fs) b)).
  { intros n Hn. destruct (Nat.ltb_spec n (length b)) as [Hlt|Hge]; [|discriminate].
    intros [= <- <-]. split; [reflexivity|]. split; [lia|].
    rewrite cut_short_lookup. destruct (decide (name = name)); [|congruence].
    cbn. do 2 f_equal. lia. }
  destruct (Nat.ltb os.NAME_MAX (String.length name)).
  { intros [= <- <-]. left. split; reflexivity. }
  destruct (os.readonly fs).
  - intros [= <- <-]. left. split; reflexivity.
  - destruct (os.files fs !! name) as [i|].
    + destruct (negb (os.has (os.mode i) os.S_IWUSR)).
      * intros [= <- <-]. left. split; reflexivity.
      * intros H. right. eapply Hcut; [reflexivity | exact H].
    + intros H. right. eapply Hcut; [reflexivity | exact H].
Qed.

Lemma save_failure_witness :
  os.data <$> os.files (fst (save test_page full_store)) !! "TestPage.txt"
  = Some (list_byte_of_string "hello=worl").
Proof.
  destruct (save_failure test_page full_store (fst (save test_page full_store))
              (write_error "TestPage.txt")) as [[H _] | (_ & _ & H)].
  - split; [discriminate | reflexivity].
  - reflexivity.
  - discriminate H.
  - exact H.
Defined.

Lemma makeHandler_frame (fn : handler) w r fs :
  (forall title, fst (fn w r title fs) = fs) -> fst (makeHandler fn w r fs) = fs.
Proof.
  intros H. unfold makeHandler.
  destruct (FindStringSubmatch validPath (http.URL_Path r)); [apply H | reflexivity].
Qed.

Lemma viewHandler_frame w r title fs : fst (viewHandler w r title fs) = fs.
Proof.
  unfold viewHandler. rewrite loadPage_cases.
  destruct (Nat.ltb os.NAME_MAX (String.length (title +:+ ".txt"))); [reflexivity|].
  destruct (os.files fs !! (title +:+ ".txt")) as [i|]; [|reflexivity].
  destruct (os.has (os.mode i) os.S_IRUSR); reflexivity.
Qed.

Lemma editHandler_frame w r title fs : fst (editHandler w r title fs) = fs.
Proof.
  unfold editHandler. rewrite loadPage_cases.
  destruct (Nat.ltb os.NAME_MAX (String.length (title +:+ ".txt"))); [reflexivity|].
  destruct (os.files fs !! (title +:+ ".txt")) as [i|]; [|reflexivity].
  destruct (os.has (os.mode i) os.S_IRUSR); reflexivity.
Qed.

Lemma saveHandler_store w r title fs :
  fst (saveHandler w r title fs)
  = fst (save {| Title := title; Body := list_byte_of_string (http.FormValue r "body") |} fs).
Proof.
  unfold saveHandler. cbv zeta. destruct (save _ fs) as [fs1 [err|]]; reflexivity.
Qed.

(** X7. View and edit requests leave the store as it was.  A save request
    changes at most the page file of the title in its path; in particular it
    never changes the two template files. *)
Theorem requests_touch_only_their_page (w : http.ResponseWriter) (r : http.Request) (fs : os.FS) :
  fst (makeHandler viewHandler w r fs) = fs
  /\ fst (makeHandler editHandler w r fs) = fs
  /\ (forall name,
        (forall action title,
           In action ["view"; "edit"; "save"] -> valid_title title ->
           http.URL_Path r = "/" +:+ action +:+ "/" +:+ title -> name <> title +:+ ".txt") ->
        os.files (fst (makeHandler saveHandler w r fs)) !! name = os.files fs !! name)
  /\ os.files (fst (makeHandler saveHandler w r fs)) !! "edit.html" = os.files fs !! "edit.html"
  /\ os.files (fst (makeHandler saveHandler w r fs)) !! "view.html" = os.files fs !! "view.html".
Proof.
  split; [apply makeHandler_frame; intros; apply viewHandler_frame|].
  split; [apply makeHandler_frame; intros; apply editHandler_frame|].
  assert (Hsave : forall name,
            (forall action title,
               In action ["view"; "edit"; "save"] -> valid_title title ->
               http.URL_Path r = "/" +:+ action +:+ "/" +:+ title -> name <> title +:+ ".txt") ->
            os.files (fst (makeHandler saveHandler w r fs)) !! name = os.files fs !! name).
  { intros name Hname. unfold makeHandler.
    destruct (FindStringSubmatch validPath (http.URL_Path r)) as [m|] eqn:E; [|reflexivity].
    destruct (FindStringSubmatch_validPath_inv _ _ E) as (a & t & Hin & Ht & Hp & ->).
    cbn [nth]. rewrite saveHandler_store. unfold save. cbv zeta. cbn [Title Body].
    apply WriteFile_frame. eapply Hname; eassumption. }
  split; [exact Hsave|].
  split; apply Hsave; intros a t _ _ _ H; symmetry in H; apply (page_not_template t) in H; exact H.
Qed.

(** X8. If no page file is open to group or others, this stays so after any
    view, edit or save request and after startup: [save] creates page files
    with mode 0600, and an existing file keeps its mode. *)
Theorem pages_stay_private (w : http.ResponseWriter) (r : http.Request) (fs : os.FS) :
  pages_private fs ->
  pages_private (fst (makeHandler saveHandler w r fs))
  /\ pages_private (fst (makeHandler viewHandler w r fs))
  /\ pages_private (fst (makeHandler editHandler w r fs))
  /\ pages_private (fst (init fs)).
Proof.
  intros Hpriv. split; [|split; [|split]].
  - unfold makeHandler.
    destruct (FindStringSubmatch validPath (http.URL_Path r)) as [m|] eqn:E; [|exact Hpriv].
    destruct (FindStringSubmatch_validPath_inv _ _ E) as (a & t & Hin & Ht & Hp & ->).
    cbn [nth]. rewrite saveHandler_store. unfold save. cbv zeta. cbn [Title Body].
    intros title i Htitle Hi. apply WriteFile_lookup in Hi as [Hi | (Hname & Hmode & _)].
    + apply (Hpriv title i Htitle Hi).
    + rewrite Hmode. unfold old_mode.
      destruct (os.files fs !! (t +:+ ".txt")) as [i0|] eqn:E0; [|reflexivity].
      apply (Hpriv t i0 Ht E0).
  - rewrite makeHandler_frame; [exact Hpriv | intros; apply viewHandler_frame].
  - rewrite makeHandler_frame; [exact Hpriv | intros; apply editHandler_frame].
  - intros title i Htitle Hi. apply (Hpriv title i Htitle). rewrite <- Hi.
    destruct (page_not_template title) as [He Hv].
    rewrite init_store. unfold setup. cbv zeta.
    rewrite !makeFile_frame by assumption. reflexivity.
Qed.

Lemma test_store_pages_private : pages_private test_store.
Proof.
  intros title i _ Hi. unfold test_store, written in Hi. cbn [os.files] in Hi.
  apply lookup_insert_Some in Hi as [[_ <-] | [_ Hi]]; [reflexivity|].
  unfold empty_store in Hi. cbn [os.files] in Hi. rewrite lookup_empty in Hi. discriminate.
Qed.

Lemma pages_stay_private_witness :
  pages_private (fst (makeHandler saveHandler http.fresh
                        (post "/save/Other" {["body" := ["text"]]}) test_store)).
Proof.
  destruct (pages_stay_private http.fresh (post "/save/Other" {["body" := ["text"]]}) test_store
              test_store_pages_private) as (H & _).
  exact H.
Defined.

(** ** Requests, end to end *)

Lemma makeHandler_routed (fn : handler) action title w r fs :
  In action ["view"; "edit"; "save"] -> valid_title title ->
  http.URL_Path r = "/" +:+ action +:+ "/" +:+ title ->
  makeHandler fn w r fs = fn w r title fs.
Proof.
  intros Hin Ht Hp. unfold makeHandler.
  rewrite Hp, FindStringSubmatch_validPath_match by assumption. reflexivity.
Qed.

Lemma written_lookup name b perm fs :
  os.files (written name b perm fs) !! name
  = Some {| os.data := b; os.mode := old_mode fs name perm |}.
Proof. unfold written. cbn [os.files]. apply lookup_insert_eq. Qed.

Lemma accepts_old_mode_readable name n fs :
  accepts fs name n -> os.has (old_mode fs name 0x180) os.S_IRUSR = true.
Proof.
  intros (_ & _ & H). unfold old_mode. destruct (os.files fs !! name); [apply H | reflexivity].
Qed.

Lemma render_valid_view title b :
  valid_title title ->
  renderTemplate http.fresh "view" {| Title := title; Body := list_byte_of_string b |}
  = {| http.header := ∅; http.status := Some http.StatusOK;
       http.body := view_page title title (htmlReplacer b) |}.
Proof.
  intros [_ Ht]. rewrite renderTemplate_view. cbn [Title Body].
  rewrite urlNormalizer_alnum, htmlReplacer_alnum, string_of_list_byte_of_string by assumption.
  reflexivity.
Qed.

Lemma render_valid_edit title b :
  valid_title title ->
  renderTemplate http.fresh "edit" {| Title := title; Body := list_byte_of_string b |}
  = {| http.header := ∅; http.status := Some http.StatusOK;
       http.body := edit_page title title (htmlReplacer b) |}.
Proof.
  intros [_ Ht]. rewrite renderTemplate_edit. cbn [Title Body].
  rewrite urlNormalizer_alnum, htmlReplacer_alnum, string_of_list_byte_of_string by assumption.
  reflexivity.
Qed.

(** X9. A save request for a valid title on a store that accepts the body is
    answered by a redirect to [/view/<title>]; the page file then holds the
    submitted body, and a view or edit request for that title on the store the
    save left is answered 200 with the page showing the body, HTML-escaped. *)
Theorem save_request_then_show (rs rv re : http.Request) (title : string) (fs : os.FS) :
  valid_title title ->
  http.URL_Path rs = "/save/" +:+ title ->
  accepts fs (title +:+ ".txt") (String.length (http.FormValue rs "body")) ->
  exists fs1,
    makeHandler saveHandler http.fresh rs fs
    = (fs1, http.Redirect http.fresh rs ("/view/" +:+ title) http.StatusFound)
    /\ os.data <$> os.files fs1 !! (title +:+ ".txt")
       = Some (list_byte_of_string (http.FormValue rs "body"))
    /\ (http.URL_Path rv = "/view/" +:+ title ->
        makeHandler viewHandler http.fresh rv fs1
        = (fs1, {| http.header := ∅; http.status := Some http.StatusOK;
                   http.body := view_page title title (htmlReplacer (http.FormValue rs "body")) |}))
    /\ (http.URL_Path re = "/edit/" +:+ title ->
        makeHandler editHandler http.fresh re fs1
        = (fs1, {| http.header := ∅; http.status := Some http.StatusOK;
                   http.body := edit_page title title (htmlReplacer (http.FormValue rs "body")) |})).
Proof.
  intros Ht Hs Hacc. set (b := http.FormValue rs "body") in *.
  exists (written (title +:+ ".txt") (list_byte_of_string b) 0x180 fs).
  assert (Hload : loadPage title (written (title +:+ ".txt") (list_byte_of_string b) 0x180 fs)
                  = (written (title +:+ ".txt") (list_byte_of_string b) 0x180 fs,
                     inl {| Title := title; Body := list_byte_of_string b |})).
  { rewrite loadPage_cases, (short_name _ (proj1 Hacc)), written_lookup. cbn [os.mode os.data].
    rewrite (accepts_old_mode_readable _ _ _ Hacc). reflexivity. }
  split; [|split; [|split]].
  - rewrite (makeHandler_routed saveHandler "save" title) by (simpl; auto).
    unfold saveHandler, save. cbv zeta. cbn [Title Body]. fold b.
    rewrite WriteFile_accepts by (rewrite length_list_byte_of_string; exact Hacc). reflexivity.
  - rewrite written_lookup. reflexivity.
  - intros Hv. rewrite (makeHandler_routed viewHandler "view" title) by (simpl; auto).
    unfold viewHandler. rewrite Hload, render_valid_view by exact Ht. reflexivity.
  - intros He. rewrite (makeHandler_routed editHandler "edit" title) by (simpl; auto).
    unfold editHandler. rewrite Hload, render_valid_edit by exact Ht. reflexivity.
Qed.

Lemma save_request_then_show_witness :
  makeHandler viewHandler http.fresh (get "/view/TestPage")
    (fst (makeHandler saveHandler http.fresh
            (post "/save/TestPage" {["body" := ["<b>hello</b>"]]}) empty_store))
  = (fst (makeHandler saveHandler http.fresh
            (post "/save/TestPage" {["body" := ["<b>hello</b>"]]}) empty_store),
     {| http.header := ∅; http.status := Some http.StatusOK;
        http.body := view_page "TestPage" "TestPage" "&lt;b&gt;hello&lt;/b&gt;" |}).
Proof.
  destruct (save_request_then_show (post "/save/TestPage" {["body" := ["<b>hello</b>"]]})
              (get "/view/TestPage") (get "/edit/TestPage") "TestPage" empty_store)
    as (fs1 & Hsave & _ & Hview & _).
  - split; [discriminate | reflexivity].
  - reflexivity.
  - apply empty_store_accepts; vm_compute; lia.
  - rewrite Hsave. cbn [fst]. apply Hview. reflexivity.
Defined.

(** X10. A view request for a page that cannot be loaded is answered by a
    302 redirect to [/edit/<title>], and the request for the path in that
    [Location] header is answered 200 with the edit form for the title, its
    text area empty; the store is left as it was. *)
Theorem view_miss_then_edit_form (rv re : http.Request) (title : string) (fs : os.FS) :
  valid_title title ->
  http.URL_Path rv = "/view/" +:+ title ->
  (forall p, snd (loadPage title fs) <> inl p) ->
  http.status (snd (makeHandler viewHandler http.fresh rv fs)) = Some 302%Z
  /\ http.header (snd (makeHandler viewHandler http.fresh rv fs)) !! "Location"
     = Some ("/edit/" +:+ title)
  /\ (http.header (snd (makeHandler viewHandler http.fresh rv fs)) !! "Location"
      = Some (http.URL_Path re) ->
      makeHandler editHandler http.fresh re fs
      = (fs, {| http.header := ∅; http.status := Some http.StatusOK;
                http.body := edit_page title title "" |})).
Proof.
  intros Ht Hv Hmiss.
  rewrite (makeHandler_routed viewHandler "view" title) by (simpl; auto).
  assert (Hload : exists err, loadPage title fs = (fs, inr err)).
  { pose proof (loadPage_frame title fs) as Hfr.
    destruct (loadPage title fs) as [fs1 [p|err]] eqn:E; cbn [fst snd] in *; subst fs1.
    - destruct (Hmiss p). reflexivity.
    - eauto. }
  destruct Hload as [err Hload]. unfold viewHandler. rewrite Hload. cbn [snd].
  split; [apply Redirect_fresh_status|]. split; [apply Redirect_fresh_Location|].
  rewrite Redirect_fresh_Location. intros [= He].
  rewrite (makeHandler_routed editHandler "edit" title) by (simpl; auto).
  unfold editHandler. rewrite Hload.
  change (@nil byte) with (list_byte_of_string ""). rewrite render_valid_edit by exact Ht.
  reflexivity.
Qed.

Lemma view_miss_then_edit_form_witness :
  makeHandler editHandler http.fresh (get "/edit/NoSuchPage") empty_store
  = (empty_store, {| http.header := ∅; http.status := Some http.StatusOK;
                     http.body := edit_page "NoSuchPage" "NoSuchPage" "" |}).
Proof.
  destruct (view_miss_then_edit_form (get "/view/NoSuchPage") (get "/edit/NoSuchPage")
              "NoSuchPage" empty_store) as (_ & _ & Hedit).
  - split; [discriminate | reflexivity].
  - reflexivity.
  - intros p H. vm_compute in H. discriminate.
  - apply Hedit. reflexivity.
Defined.

(** X11. Whatever the request and the store, the wrapped view handler answers
    200, 302 or 404, the wrapped edit handler 200 or 404, and the wrapped save
    handler 302, 500 or 404: with the two templates loaded, rendering never
    reports an error. *)
Theorem handler_statuses (r : http.Request) (fs : os.FS) :
  (http.status (snd (makeHandler viewHandler http.fresh r fs)) = Some 200%Z
   \/ http.status (snd (makeHandler viewHandler http.fresh r fs)) = Some 302%Z
   \/ http.status (snd (makeHandler viewHandler http.fresh r fs)) = Some 404%Z)
  /\ (http.status (snd (makeHandler editHandler http.fresh r fs)) = Some 200%Z
      \/ http.status (snd (makeHandler editHandler http.fresh r fs)) = Some 404%Z)
  /\ (http.status (snd (makeHandler saveHandler http.fresh r fs)) = Some 302%Z
      \/ http.status (snd (makeHandler saveHandler http.fresh r fs)) = Some 500%Z
      \/ http.status (snd (makeHandler saveHandler http.fresh r fs)) = Some 404%Z).
Proof.
  unfold makeHandler.
  destruct (FindStringSubmatch validPath (http.URL_Path r)) as [m|]; [|cbn; auto 6].
  split; [|split].
  - unfold viewHandler. destruct (loadPage _ fs) as [fs1 [p|err]]; cbn [snd].
    + left. rewrite renderTemplate_view. reflexivity.
    + right. left. apply Redirect_fresh_status.
  - left. unfold editHandler.
    destruct (loadPage _ fs) as [fs1 [p|err]]; cbn [snd]; rewrite renderTemplate_edit; reflexivity.
  - unfold saveHandler. cbv zeta. destruct (save _ fs) as [fs1 [err|]]; cbn [snd].
    + right. left. reflexivity.
    + left. apply Redirect_fresh_status.
Qed.

(** ** renderTemplate *)

Lemma Lookup_templates name :
  Lookup templates (name +:+ ".html")
  = if String.eqb name "edit" then Some edit_template
    else if String.eqb name "view" then Some view_template else None.
Proof.
  unfold templates. cbn [Lookup].
  destruct (String.eqb_spec name "edit") as [->|He]; [reflexivity|].
  destruct (String.eqb_spec "edit.html" (name +:+ ".html")) as [H|_].
  { destruct He. apply (append_inv_r name "edit" ".html"). symmetry. exact H. }
  destruct (String.eqb_spec name "view") as [->|Hv]; [reflexivity|].
  destruct (String.eqb_spec "view.html" (name +:+ ".html")) as [H|_]; [|reflexivity].
  destruct Hv. apply (append_inv_r name "view" ".html"). symmetry. exact H.
Qed.

Lemma renderTemplate_other tmpl p :
  tmpl <> "view" -> tmpl <> "edit" ->
  renderTemplate http.fresh tmpl p
  = http.Error http.fresh
      ("html/template: " +:+ DQ +:+ (tmpl +:+ ".html") +:+ DQ +:+ " is undefined")
      http.StatusInternalServerError.
Proof.
  intros Hv He. unfold renderTemplate, ExecuteTemplate. rewrite Lookup_templates.
  destruct (String.eqb_spec tmpl "edit"); [contradiction|].
  destruct (String.eqb_spec tmpl "view"); [contradiction|]. reflexivity.
Qed.

(** X12. For a name other than view and edit no template is defined:
    [renderTemplate] then answers with status 500 as plain text and writes
    nothing of the page, the response being the same for every page; for an
    alphanumeric name the body is the template package's message. *)
Theorem renderTemplate_unknown_name (tmpl : string) (p : Page) :
  tmpl <> "view" -> tmpl <> "edit" ->
  http.status (renderTemplate http.fresh tmpl p) = Some 500%Z
  /\ http.header (renderTemplate http.fresh tmpl p) !! "Content-Type"
     = Some "text/plain; charset=utf-8"
  /\ (forall q, renderTemplate http.fresh tmpl q = renderTemplate http.fresh tmpl p)
  /\ (all_alnum tmpl = true ->
      http.body (renderTemplate http.fresh tmpl p)
      = "html/template: " +:+ DQ +:+ (tmpl +:+ ".html") +:+ DQ +:+ " is undefined" +:+ LF).
Proof.
  intros Hv He. rewrite (renderTemplate_other tmpl p Hv He), Error_fresh.
  cbn [http.status http.header http.body]. split; [reflexivity|]. split; [|split].
  - rewrite lookup_insert_ne by discriminate. apply lookup_insert_eq.
  - intros q. rewrite (renderTemplate_other tmpl q Hv He), Error_fresh. reflexivity.
  - intros _. rewrite !append_assoc_s. reflexivity.
Qed.

Lemma renderTemplate_unknown_name_witness :
  http.status (renderTemplate http.fresh "index" test_page) = Some 500%Z
  /\ http.body (renderTemplate http.fresh "index" test_page)
     = "html/template: " +:+ DQ +:+ "index.html" +:+ DQ +:+ " is undefined" +:+ LF.
Proof.
  destruct (renderTemplate_unknown_name "index" test_page) as (Hs & _ & _ & Hb);
    [discriminate | discriminate |].
  split; [exact Hs | apply Hb; reflexivity].
Defined.

(** ** saveHandler *)

(** X13. When the form carries several values for [body], the save handler
    does what it does for the request with the first value alone: the other
    values are ignored. *)
Theorem saveHandler_first_value (w : http.ResponseWriter) (r : http.Request) (title : string)
    (fs : os.FS) (v : string) (vs : list string) :
  http.Form r !! "body" = Some (v :: vs) ->
  saveHandler w r title fs = saveHandler w (with_field r "body" v) title fs
  /\ fst (saveHandler w r title fs)
     = fst (save {| Title := title; Body := list_byte_of_string v |} fs).
Proof.
  intros Hf.
  assert (Hv : http.FormValue r "body" = v) by (unfold http.FormValue; rewrite Hf; reflexivity).
  assert (Hv' : http.FormValue (with_field r "body" v) "body" = v).
  { unfold http.FormValue, with_field. cbn [http.Form]. rewrite lookup_insert_eq. reflexivity. }
  unfold saveHandler. cbv zeta. rewrite Hv, Hv'.
  destruct (save _ fs) as [fs1 [err|]]; split; reflexivity.
Qed.

Lemma saveHandler_first_value_witness :
  os.data <$> os.files (fst (saveHandler http.fresh
                               (post "/save/TestPage" {["body" := ["one"; "two"]]})
                               "TestPage" empty_store)) !! "TestPage.txt"
  = Some (list_byte_of_string "one").
Proof.
  destruct (saveHandler_first_value http.fresh (post "/save/TestPage" {["body" := ["one"; "two"]]})
              "TestPage" empty_store "one" ["two"]) as [_ H]; [reflexivity|].
  rewrite H. reflexivity.
Defined.

(** ** Startup *)

Lemma makeFile_cases name content fs :
  makeFile name content fs
  = if Nat.ltb os.NAME_MAX (String.length name) then fs
    else if os.readonly fs then fs
    else match os.files fs !! name with
         | Some i =>
             if negb (os.has (os.mode i) os.S_IRUSR) || negb (os.has (os.mode i) os.S_IWUSR)
             then fs else filled name (list_byte_of_string content) 0x1b6 fs
         | None => filled name (list_byte_of_string content) 0x1b6 fs
         end.
Proof.
  unfold makeFile, os.Create, filled.
  rewrite (OpenFile_trunc_cases name (Z.lor os.O_RDWR (Z.lor os.O_CREATE os.O_TRUNC)) 0x1b6 fs
             eq_refl eq_refl eq_refl).
  destruct (Nat.ltb os.NAME_MAX (String.length name)); [reflexivity|].
  destruct (os.readonly fs); [reflexivity|].
  destruct (os.files fs !! name) as [i|].
  - change (os.denied (Z.lor os.O_RDWR (Z.lor os.O_CREATE os.O_TRUNC)) i)
      with (negb (os.has (os.mode i) os.S_IRUSR) || negb (os.has (os.mode i) os.S_IWUSR)).
    destruct (negb (os.has (os.mode i) os.S_IRUSR) || negb (os.has (os.mode i) os.S_IWUSR));
      [reflexivity|].
    unfold os.File_WriteString. rewrite write_after_trunc. reflexivity.
  - unfold os.File_WriteString. rewrite write_after_trunc. reflexivity.
Qed.

Lemma makeFile_writable name content fs :
  String.length name <= os.NAME_MAX ->
  os.readonly fs = false -> (forall i, os.files fs !! name = Some i -> owner_rw i) ->
  makeFile name content fs = filled name (list_byte_of_string content) 0x1b6 fs.
Proof.
  intros Hlen Hro Hrw. rewrite makeFile_cases, (short_name name Hlen), Hro.
  destruct (os.files fs !! name) as [i|]; [|reflexivity].
  destruct (Hrw i eq_refl) as [-> ->]. reflexivity.
Qed.

Lemma take_prefix (s : string) : forall n,
  string_of_list_byte (take n (list_byte_of_string s)) = substring 0 n s.
Proof.
  induction s as [|a s IH]; intros [|n]; try reflexivity.
  change (list_byte_of_string (String a s)) with (byte_of_ascii a :: list_byte_of_string s).
  cbn [take]. change (string_of_list_byte (?b :: ?l)) with (String (ascii_of_byte b) (string_of_list_byte l)).
  rewrite ascii_of_byte_of_ascii, IH. reflexivity.
Qed.

Lemma filled_lookup name b perm fs name' :
  os.files (filled name b perm fs) !! name'
  = if decide (name = name')
    then Some {| os.data := take (old_size fs name + os.free fs) b; os.mode := old_mode fs name perm |}
    else os.files fs !! name'.
Proof.
  unfold filled. rewrite cut_short_lookup. destruct (decide (name = name')); [|reflexivity].
  do 2 f_equal. destruct (Nat.le_ge_cases (length b) (old_size fs name + os.free fs)) as [H|H].
  - rewrite Nat.min_l by exact H. rewrite !take_ge by lia. reflexivity.
  - rewrite Nat.min_r by exact H. reflexivity.
Qed.

(** X14. [makeFile] does nothing under a name longer than 255 bytes, nothing
    on a store mounted read-only and nothing to a file its owner may not read
    and write.  Otherwise the file afterwards holds the longest prefix of the
    content that fits in the room the store has once the file is truncated,
    with its old mode, or 0666 when new.  No other file is changed. *)
Theorem makeFile_writes_what_fits (name content : string) (fs : os.FS) :
  (os.readonly fs = true -> makeFile name content fs = fs)
  /\ (forall i, os.files fs !! name = Some i -> ~ owner_rw i -> makeFile name content fs = fs)
  /\ (os.NAME_MAX < String.length name -> makeFile name content fs = fs)
  /\ (String.length name <= os.NAME_MAX ->
      os.readonly fs = false -> (forall i, os.files fs !! name = Some i -> owner_rw i) ->
      os.files (makeFile name content fs) !! name
      = Some {| os.data := list_byte_of_string
                             (substring 0 (old_size fs name + os.free fs) content);
                os.mode := old_mode fs name 0x1b6 |})
  /\ (forall name', name' <> name ->
        os.files (makeFile name content fs) !! name' = os.files fs !! name').
Proof.
  split; [|split; [|split; [|split]]].
  - intros Hro. rewrite makeFile_cases, Hro.
    destruct (Nat.ltb os.NAME_MAX (String.length name)); reflexivity.
  - intros i Hi Hn. rewrite makeFile_cases, Hi.
    destruct (Nat.ltb os.NAME_MAX (String.length name)); [reflexivity|].
    destruct (os.readonly fs); [reflexivity|].
    destruct (os.has (os.mode i) os.S_IRUSR) eqn:Hr, (os.has (os.mode i) os.S_IWUSR) eqn:Hw;
      try reflexivity.
    destruct Hn. split; assumption.
  - intros Hlong. apply Nat.ltb_lt in Hlong. rewrite makeFile_cases, Hlong. reflexivity.
  - intros Hlen Hro Hrw. rewrite makeFile_writable, filled_lookup by assumption.
    destruct (decide (name = name)); [|congruence].
    rewrite <- take_prefix, list_byte_of_string_of_list_byte. reflexivity.
  - intros name' Hne. apply makeFile_frame, Hne.
Qed.

Lemma makeFile_writes_what_fits_witness :
  os.files (makeFile "edit.html" edit_html full_store) !! "edit.html"
  = Some {| os.data := list_byte_of_string (LF +:+ "<h1>Editi"); os.mode := 0x1b6 |}.
Proof.
  destruct (makeFile_writes_what_fits "edit.html" edit_html full_store) as (_ & _ & _ & H & _).
  rewrite H; [reflexivity | vm_compute; lia | reflexivity |].
  intros i Hi. vm_compute in Hi. discriminate.
Defined.

Lemma setup_writable fs :
  templates_writable fs ->
  setup fs
  = filled "view.html" (list_byte_of_string view_html) 0x1b6
      (filled "edit.html" (list_byte_of_string edit_html) 0x1b6 fs).
Proof.
  intros [Hro Hrw]. unfold setup. cbv zeta.
  rewrite (makeFile_writable "edit.html")
    by (try exact Hro; try (vm_compute; lia); intros i; apply Hrw; auto).
  apply makeFile_writable; [vm_compute; lia | exact Hro |].
  intros i. rewrite filled_lookup. destruct (decide ("edit.html" = "view.html")); [discriminate|].
  apply Hrw. auto.
Qed.

(** What [setup] leaves in the two template files of a store that lets them
    be opened. *)
Lemma setup_fits fs :
  templates_writable fs ->
  os.files (setup fs) !! "edit.html"
  = Some {| os.data := list_byte_of_string
                         (substring 0 (old_size fs "edit.html" + os.free fs) edit_html);
            os.mode := old_mode fs "edit.html" 0x1b6 |}
  /\ os.files (setup fs) !! "view.html"
     = Some {| os.data := list_byte_of_string
                            (substring 0
                               (old_size fs "view.html"
                                + (old_size fs "edit.html" + os.free fs
                                   - Nat.min (String.length edit_html)
                                       (old_size fs "edit.html" + os.free fs)))
                               view_html);
               os.mode := old_mode fs "view.html" 0x1b6 |}.
Proof.
  intros Hw. rewrite (setup_writable fs Hw).
  set (n := old_size fs "edit.html" + os.free fs).
  set (fs1 := filled "edit.html" (list_byte_of_string edit_html) 0x1b6 fs).
  assert (Hv : old_size fs1 "view.html" = old_size fs "view.html"
               /\ old_mode fs1 "view.html" 0x1b6 = old_mode fs "view.html" 0x1b6).
  { unfold old_size, old_mode, fs1. rewrite filled_lookup.
    destruct (decide ("edit.html" = "view.html")); [discriminate | split; reflexivity]. }
  destruct Hv as [Hvs Hvm].
  assert (Hfree : os.free fs1 = n - Nat.min (String.length edit_html) n).
  { unfold fs1, filled, cut_short. cbn [os.free]. rewrite length_list_byte_of_string.
    unfold n. lia. }
  rewrite !filled_lookup.
  destruct (decide ("view.html" = "edit.html")); [discriminate|].
  destruct (decide ("view.html" = "view.html")); [|congruence].
  unfold fs1 at 1. rewrite ?filled_lookup.
  destruct (decide ("edit.html" = "edit.html")); [|congruence].
  rewrite Hvs, Hvm, Hfree.
  rewrite <- !take_prefix, !list_byte_of_string_of_list_byte. split; reflexivity.
Qed.

(** X15. On a store mounted read-write where the template files are absent or
    open to their owner, [setup] leaves in [edit.html] the prefix of the
    built-in text that fits, and in [view.html] the prefix that fits in what
    [edit.html] has left. *)
Theorem setup_writes_what_fits (fs : os.FS) :
  templates_writable fs ->
  let n := old_size fs "edit.html" + os.free fs in
  let m := old_size fs "view.html" + (n - Nat.min (String.length edit_html) n) in
  os.data <$> os.files (setup fs) !! "edit.html"
  = Some (list_byte_of_string (substring 0 n edit_html))
  /\ os.data <$> os.files (setup fs) !! "view.html"
     = Some (list_byte_of_string (substring 0 m view_html)).
Proof.
  intros Hw n m. destruct (setup_fits fs Hw) as [-> ->]. split; reflexivity.
Qed.

Lemma full_store_templates_writable : templates_writable full_store.
Proof. split; [reflexivity|]. intros name i [-> | ->] H; vm_compute in H; discriminate. Qed.

Lemma setup_writes_what_fits_witness :
  os.data <$> os.files (setup full_store) !! "edit.html"
  = Some (list_byte_of_string (LF +:+ "<h1>Editi"))
  /\ os.data <$> os.files (setup full_store) !! "view.html" = Some [].
Proof. apply (setup_writes_what_fits full_store), full_store_templates_writable. Defined.

Lemma makeFile_readonly name content fs : os.readonly fs = true -> makeFile name content fs = fs.
Proof.
  intros Hro. rewrite makeFile_cases, Hro.
  destruct (Nat.ltb os.NAME_MAX (String.length name)); reflexivity.
Qed.

Lemma setup_readonly fs : os.readonly fs = true -> setup fs = fs.
Proof.
  intros Hro. unfold setup. cbv zeta.
  rewrite !makeFile_readonly by (rewrite ?makeFile_readonly; exact Hro). reflexivity.
Qed.

Lemma init_readonly_missing fs :
  os.readonly fs = true -> os.files fs !! "edit.html" = None ->
  snd (init fs) = Panicked "open edit.html: no such file or directory".
Proof.
  intros Hro He. rewrite init_cases, (setup_readonly fs Hro). cbn [snd ParseFiles].
  rewrite ReadFile_absent; [reflexivity | vm_compute; lia | exact He].
Qed.

(** X16. On a store mounted read-only [setup] changes nothing, and neither
    does [init]; when [edit.html] is not there, [init] ends in the panic of
    [template.Must] with the error of the missing file. *)
Theorem init_readonly (fs : os.FS) :
  os.readonly fs = true ->
  setup fs = fs
  /\ fst (init fs) = fs
  /\ (os.files fs !! "edit.html" = None ->
      snd (init fs) = Panicked "open edit.html: no such file or directory").
Proof.
  intros Hro. split; [apply setup_readonly, Hro|]. split.
  - rewrite init_store. apply setup_readonly, Hro.
  - apply init_readonly_missing, Hro.
Qed.

Lemma init_readonly_witness :
  init readonly_store = (readonly_store, Panicked "open edit.html: no such file or directory").
Proof.
  destruct (init_readonly readonly_store eq_refl) as (_ & Hfst & Hsnd).
  rewrite (surjective_pairing (init readonly_store)), Hfst, Hsnd; reflexivity.
Defined.

Lemma written_same name b m perm fs :
  os.files fs !! name = Some {| os.data := b; os.mode := m |} -> written name b perm fs = fs.
Proof.
  intros H. unfold written, old_mode, old_size. rewrite H. cbn [os.data os.mode].
  rewrite insert_id by exact H. rewrite Nat.add_sub. destruct fs; reflexivity.
Qed.

Lemma setup_again fs : bootstrap_ok fs -> setup (setup fs) = setup fs.
Proof.
  intros Hok. pose proof Hok as (Hro & Hrw & Hroom). rewrite (setup_accepts fs Hok).
  set (fs1 := written "edit.html" (list_byte_of_string edit_html) 0x1b6 fs).
  set (fs2 := written "view.html" (list_byte_of_string view_html) 0x1b6 fs1).
  assert (Hmode : forall name, name = "edit.html" \/ name = "view.html" ->
                    owner_rw {| os.data := []; os.mode := old_mode fs name 0x1b6 |}).
  { intros name Hn. unfold old_mode. destruct (os.files fs !! name) as [i|] eqn:E;
      [apply (Hrw name i Hn E) | split; reflexivity]. }
  assert (He : os.files fs2 !! "edit.html"
               = Some {| os.data := list_byte_of_string edit_html;
                         os.mode := old_mode fs "edit.html" 0x1b6 |}).
  { unfold fs2, written at 1. cbn [os.files]. rewrite lookup_insert_ne by discriminate.
    apply written_lookup. }
  assert (Hv : os.files fs2 !! "view.html"
               = Some {| os.data := list_byte_of_string view_html;
                         os.mode := old_mode fs "view.html" 0x1b6 |}).
  { unfold fs2. rewrite written_lookup. unfold old_mode, fs1, written. cbn [os.files].
    rewrite lookup_insert_ne by discriminate. reflexivity. }
  unfold setup. cbv zeta.
  rewrite (makeFile_accepts "edit.html" edit_html fs2).
  - rewrite (written_same _ _ _ _ _ He). rewrite (makeFile_accepts "view.html" view_html fs2).
    + apply (written_same _ _ _ _ _ Hv).
    + split; [vm_compute; lia|]. split; [exact Hro|].
      rewrite Hv. cbn [os.data]. rewrite length_list_byte_of_string.
      split; [apply (Hmode "view.html"); auto | lia].
  - split; [vm_compute; lia|]. split; [exact Hro|].
    rewrite He. cbn [os.data]. rewrite length_list_byte_of_string.
    split; [apply (Hmode "edit.html"); auto | lia].
Qed.

(** X17. After a startup on a store that takes both template files, a second
    startup leaves the store as the first left it and loads the same texts. *)
Theorem restart_changes_nothing (fs : os.FS) :
  bootstrap_ok fs ->
  init (fst (init fs)) = init fs.
Proof.
  intros Hok. rewrite !init_cases. cbn [fst]. rewrite (setup_again fs Hok). reflexivity.
Qed.

Lemma restart_changes_nothing_witness :
  init (fst (init custom_store)) = init custom_store.
Proof. apply (restart_changes_nothing custom_store), custom_store_bootstrap_ok. Defined.

Lemma makeFile_mount name content fs : os.readonly (makeFile name content fs) = os.readonly fs.
Proof.
  rewrite makeFile_cases. destruct (Nat.ltb os.NAME_MAX (String.length name)); [reflexivity|].
  destruct (os.readonly fs) eqn:Hro; [exact Hro|].
  destruct (os.files fs !! name) as [i|]; [|exact Hro].
  destruct (negb (os.has (os.mode i) os.S_IRUSR) || negb (os.has (os.mode i) os.S_IWUSR)); exact Hro.
Qed.

(** X18. Startup leaves every page as it was: the page file of a valid title
    is untouched, loading it gives what it gave before, and the store stays
    mounted as it was. *)
Theorem init_keeps_pages (title : string) (fs : os.FS) :
  valid_title title ->
  os.files (fst (init fs)) !! (title +:+ ".txt") = os.files fs !! (title +:+ ".txt")
  /\ snd (loadPage title (fst (init fs))) = snd (loadPage title fs)
  /\ os.readonly (fst (init fs)) = os.readonly fs.
Proof.
  intros _. destruct (page_not_template title) as [He Hv].
  assert (Hl : os.files (fst (init fs)) !! (title +:+ ".txt") = os.files fs !! (title +:+ ".txt")).
  { rewrite init_cases. cbn [fst]. unfold setup. cbv zeta.
    rewrite !makeFile_frame by assumption. reflexivity. }
  split; [exact Hl|]. split.
  - rewrite !loadPage_cases. cbn [snd]. rewrite Hl. reflexivity.
  - rewrite init_cases. cbn [fst]. unfold setup. cbv zeta. rewrite !makeFile_mount. reflexivity.
Qed.

Lemma init_keeps_pages_witness :
  snd (loadPage "TestPage" (fst (init test_store))) = (inl test_page : Page + os.PathError).
Proof.
  destruct (init_keeps_pages "TestPage" test_store) as (_ & H & _).
  - split; [discriminate | reflexivity].
  - rewrite H. reflexivity.
Defined.

(** ** Parsing the template files *)

Example Parse_edit_html : Parse edit_html = Parsed (unescaped edit_template).
Proof. vm_compute. reflexivity. Qed.

Example Parse_view_html : Parse view_html = Parsed (unescaped view_template).
Proof. vm_compute. reflexivity. Qed.

(** A left delimiter that is never closed; an action of another form. *)
Example Parse_unclosed : Parse ("<h1>{{.Title}}</h1>" +:+ LF +:+ "<p>{{.Bo") = Malformed.
Proof. vm_compute. reflexivity. Qed.

Example Parse_other_action : Parse "{{if .Title}}x{{end}}" = Unsupported.
Proof. vm_compute. reflexivity. Qed.

Lemma substring_ge s : forall n, String.length s <= n -> substring 0 n s = s.
Proof.
  induction s as [|a s IH]; intros [|n] H; try reflexivity.
  - simpl in H. lia.
  - simpl. rewrite IH by (simpl in H; lia). reflexivity.
Qed.

(** Checking every prefix up to the whole text settles all lengths. *)
Lemma prefix_parse_all text cut n :
  forallb (prefix_parse text cut) (seq 0 (S (String.length text))) = true ->
  (forall k, String.length text <= k -> cut k = false) ->
  if cut n then Parse (substring 0 n text) = Malformed
  else exists t, Parse (substring 0 n text) = Parsed t.
Proof.
  intros Hall Hcut.
  assert (Hk : forall k, k <= String.length text ->
                 if cut k then Parse (substring 0 k text) = Malformed
                 else exists t, Parse (substring 0 k text) = Parsed t).
  { intros k Hle. rewrite forallb_forall in Hall.
    specialize (Hall k). unfold prefix_parse in Hall.
    destruct (Parse (substring 0 k text)) as [t| |], (cut k);
      try (discriminate Hall; apply in_seq; lia); eauto. }
  destruct (Nat.le_gt_cases n (String.length text)) as [Hle|Hgt]; [apply Hk, Hle|].
  rewrite (Hcut n) by lia. rewrite substring_ge by lia.
  specialize (Hk (String.length text) (Nat.le_refl _)).
  rewrite (Hcut (String.length text)), substring_all in Hk by lia. exact Hk.
Qed.

Lemma edit_html_prefix n :
  if edit_html_cut n then Parse (substring 0 n edit_html) = Malformed
  else exists t, Parse (substring 0 n edit_html) = Parsed t.
Proof.
  apply prefix_parse_all; [vm_compute; reflexivity|].
  intros k Hk. change (String.length edit_html) with 216 in Hk. unfold edit_html_cut.
  repeat match goal with |- context [Nat.leb ?a ?b] => destruct (Nat.leb_spec a b) end;
    try reflexivity; lia.
Qed.

Lemma view_html_prefix n :
  if view_html_cut n then Parse (substring 0 n view_html) = Malformed
  else exists t, Parse (substring 0 n view_html) = Parsed t.
Proof.
  apply prefix_parse_all; [vm_compute; reflexivity|].
  intros k Hk. change (String.length view_html) with 100 in Hk. unfold view_html_cut.
  repeat match goal with |- context [Nat.leb ?a ?b] => destruct (Nat.leb_spec a b) end;
    try reflexivity; lia.
Qed.

(** [init] on a store that lets both template files be opened: the texts
    parsed are the prefixes [setup] could write. *)
Lemma init_writable fs :
  templates_writable fs ->
  snd (init fs)
  = Must match Parse (substring 0 (old_size fs "edit.html" + os.free fs) edit_html) with
         | Parsed te =>
             match Parse (substring 0
                            (old_size fs "view.html"
                             + (old_size fs "edit.html" + os.free fs
                                - Nat.min (String.length edit_html)
                                    (old_size fs "edit.html" + os.free fs)))
                            view_html) with
             | Parsed tv => inl [("edit.html", te); ("view.html", tv)]
             | Malformed => inr (ParseError "view.html")
             | Unsupported => inr (NotCovered "view.html")
             end
         | Malformed => inr (ParseError "edit.html")
         | Unsupported => inr (NotCovered "edit.html")
         end.
Proof.
  intros Hw. destruct (setup_fits fs Hw) as [He Hv]. destruct Hw as [Hro Hrw].
  assert (Hmode : forall name, name = "edit.html" \/ name = "view.html" ->
                    os.has (old_mode fs name 0x1b6) os.S_IRUSR = true).
  { intros name Hn. unfold old_mode. destruct (os.files fs !! name) as [i|] eqn:E;
      [apply (Hrw name i Hn E) | reflexivity]. }
  rewrite init_cases. cbn [snd ParseFiles].
  rewrite (ReadFile_readable "edit.html" _ _ ltac:(vm_compute; lia) He)
    by (apply (Hmode "edit.html"); auto).
  rewrite (ReadFile_readable "view.html" _ _ ltac:(vm_compute; lia) Hv)
    by (apply (Hmode "view.html"); auto).
  cbn [os.data]. rewrite !string_of_list_byte_of_string.
  destruct (Parse (substring 0 (old_size fs "edit.html" + os.free fs) edit_html));
    [|reflexivity..].
  destruct (Parse (substring 0 _ view_html)); reflexivity.
Qed.

Lemma bootstrap_ok_writable fs : bootstrap_ok fs -> templates_writable fs.
Proof. intros (Hro & Hrw & _). split; assumption. Qed.

(** In a store that takes both files, [init] loads the trees of the built-in
    texts, the ones [templates] holds once escaped. *)
Lemma init_loads_builtin (fs : os.FS) :
  bootstrap_ok fs ->
  snd (init fs)
  = Loaded [("edit.html", unescaped edit_template); ("view.html", unescaped view_template)].
Proof.
  intros Hok. rewrite (init_writable fs (bootstrap_ok_writable fs Hok)).
  destruct Hok as (_ & _ & Hroom).
  rewrite (substring_ge edit_html) by lia.
  rewrite (substring_ge view_html) by lia.
  rewrite Parse_edit_html, Parse_view_html. reflexivity.
Qed.

Example loaded_templates :
  map (fun nt => (fst nt, unescaped (snd nt))) templates
  = [("edit.html", unescaped edit_template); ("view.html", unescaped view_template)].
Proof. reflexivity. Qed.

(** C10, as amended.  [makeFile] reports nothing: when creating the file
    fails the error is dropped and the store is as before; when it succeeds,
    whatever the write reports, a short count or an error, is dropped and the
    store is the one the write left.  Startup does not proceed identically,
    though: [init] goes on to read and parse the two files as they then are.
    In a store that takes both files it loads the two built-in templates.  On
    a store mounted read-only where [edit.html] is missing it panics with the
    error of the read.  On a store that lets the files be opened but has too
    little room, the files hold the prefixes that fitted: [init] panics with
    a parse error when the prefix of [edit.html], or else that of
    [view.html], ends inside an action, and loads what the prefixes parse to
    otherwise. *)
Theorem makeFile_discards_errors (name content : string) (fs : os.FS) :
  (forall fs1 err, os.Create name fs = (fs1, inr err) -> makeFile name content fs = fs)
  /\ (forall fs1 out fs2 n werr,
        os.Create name fs = (fs1, inl out) ->
        os.File_WriteString out content fs1 = (fs2, (n, werr)) ->
        makeFile name content fs = fs2)
  /\ (bootstrap_ok fs ->
      snd (init fs)
      = Loaded [("edit.html", unescaped edit_template); ("view.html", unescaped view_template)])
  /\ (os.readonly fs = true -> os.files fs !! "edit.html" = None ->
      snd (init fs) = Panicked "open edit.html: no such file or directory")
  /\ (templates_writable fs ->
      let n := old_size fs "edit.html" + os.free fs in
      let m := old_size fs "view.html" + (n - Nat.min (String.length edit_html) n) in
      (edit_html_cut n = true -> snd (init fs) = PanickedParse "edit.html")
      /\ (edit_html_cut n = false -> view_html_cut m = true ->
          snd (init fs) = PanickedParse "view.html")
      /\ (edit_html_cut n = false -> view_html_cut m = false ->
          exists te tv,
            Parse (substring 0 n edit_html) = Parsed te
            /\ Parse (substring 0 m view_html) = Parsed tv
            /\ snd (init fs) = Loaded [("edit.html", te); ("view.html", tv)])).
Proof.
  split; [|split; [|split; [|split]]].
  - intros fs1 err H. unfold makeFile. rewrite H. eapply OpenFile_error, H.
  - intros fs1 out fs2 n werr H Hw. unfold makeFile. rewrite H, Hw. reflexivity.
  - apply init_loads_builtin.
  - apply init_readonly_missing.
  - intros Hw n m. rewrite (init_writable fs Hw). fold n. fold m.
    pose proof (edit_html_prefix n) as He. pose proof (view_html_prefix m) as Hv.
    split; [|split].
    + intros Hc. rewrite Hc in He. rewrite He. reflexivity.
    + intros Hc Hc'. rewrite Hc in He. rewrite Hc' in Hv. destruct He as [te ->].
      rewrite Hv. reflexivity.
    + intros Hc Hc'. rewrite Hc in He. rewrite Hc' in Hv.
      destruct He as [te He], Hv as [tv Hv]. exists te, tv. rewrite He, Hv. auto.
Qed.

Lemma cramped_store_templates_writable : templates_writable cramped_store.
Proof. split; [reflexivity|]. intros name i [-> | ->] H; vm_compute in H; discriminate. Qed.

Lemma makeFile_discards_errors_witness :
  makeFile "edit.html" edit_html readonly_store = readonly_store
  /\ makeFile "edit.html" edit_html full_store
     = {| os.files := {["edit.html" := {| os.data := list_byte_of_string (LF +:+ "<h1>Editi");
                                          os.mode := 0x1b6 |}]};
          os.readonly := false; os.free := 0 |}
  /\ os.data <$> os.files (setup cramped_store) !! "edit.html"
     = Some (list_byte_of_string (LF +:+ "<h1>Editing {{.Titl"))
  /\ snd (init cramped_store) = PanickedParse "edit.html".
Proof.
  split; [|split; [|split]].
  - apply (makeFile_discards_errors "edit.html" edit_html readonly_store)
      with (fs1 := readonly_store) (err := os.open_error "edit.html" os.EROFS).
    reflexivity.
  - eapply (makeFile_discards_errors "edit.html" edit_html full_store); vm_compute; reflexivity.
  - vm_compute. reflexivity.
  - apply (makeFile_discards_errors "edit.html" edit_html cramped_store).
    + apply cramped_store_templates_writable.
    + reflexivity.
Defined.

(** C10, as stated, fails: startup does not proceed identically whether or
    not the files were written.  On a store that takes the files [init] loads
    them; where they could not be written and are not there it ends in the
    panic of [template.Must] on the read; where only the beginning of
    [edit.html] fitted it ends in that panic on the parse. *)
Lemma makeFile_discards_errors_counterexample :
  snd (init empty_store)
  = Loaded [("edit.html", unescaped edit_template); ("view.html", unescaped view_template)]
  /\ setup readonly_store = readonly_store
  /\ snd (init readonly_store) = Panicked "open edit.html: no such file or directory"
  /\ snd (init cramped_store) = PanickedParse "edit.html".
Proof. vm_compute. repeat split. Qed.
